(** * Toxicity analysis API: a shallow embedding of [toxicity_analysis_api.py]

    The module loads twelve pickled objects at import time (six TF-IDF
    vectorizers, six classifiers) and serves one resource, [PredictToxicity],
    whose [get] handler trims the [text] query parameter, runs the six
    vectorizer/classifier pairs and returns the rounded positive-class
    probabilities as JSON.

    Modelling choices, all local to this file:
    - a Python [str] is a list of Unicode code points ([pystr]);
    - the pickled objects are opaque: an object answers [transform] and
      [predict_proba] by returning a value or raising; what a file unpickles
      to is an object or [None], and a global whose load failed holds [None];
    - exceptions are the instances of [Exception] (what [except Exception]
      catches), carried with their class name and their [str()];
    - numbers are IEEE 754 binary64 values ([spec_float] at precision 53),
      the item type of the arrays the classifiers return; [round(x, 2)] on
      such an item is numpy's: multiply by 100, round to the nearest integer
      with ties to even, divide by 100, each step in binary64;
    - [jsonify] emits the members of an object sorted by key, Flask's
      default, which the application does not change;
    - every invocation of a method of a loaded object is recorded in a trace,
      which is the only state the handler threads; a second rendering of the
      handler, over objects that read and write a process state, is kept in
      [Stateful] for what depends on the objects being pure. *)

From Stdlib Require Import List String Ascii Bool Arith ZArith NArith QArith Qabs Lia.
From Stdlib Require Import DecimalString SpecFloat.
Import ListNotations.

Local Open Scope string_scope.
Local Open Scope list_scope.

(** ** Python strings *)

Definition pystr := list N.

(** A string literal of the source, as code points. *)
Definition lit (s : string) : pystr :=
  map N_of_ascii (list_ascii_of_string s).

(** [str(n)] for a size or an index. *)
Definition str_nat (n : nat) : pystr :=
  lit (NilZero.string_of_uint (Nat.to_uint n)).

(** The characters [str.strip()] removes when called without argument:
    CPython's [Py_UNICODE_ISSPACE]. *)
Definition Py_UNICODE_ISSPACE (c : N) : bool :=
  ((9 <=? c) && (c <=? 13)          (* \t \n \v \f \r *)
   || (28 <=? c) && (c <=? 31)      (* FS GS RS US *)
   || (c =? 32)                     (* space *)
   || (c =? 133) || (c =? 160)      (* NEL, no-break space *)
   || (c =? 5760)                   (* U+1680 *)
   || (8192 <=? c) && (c <=? 8202)  (* U+2000 .. U+200A *)
   || (c =? 8232) || (c =? 8233)    (* U+2028, U+2029 *)
   || (c =? 8239) || (c =? 8287)    (* U+202F, U+205F *)
   || (c =? 12288))%N.              (* U+3000 *)

Fixpoint lstrip (s : pystr) : pystr :=
  match s with
  | [] => []
  | c :: s' => if Py_UNICODE_ISSPACE c then lstrip s' else s
  end.

Definition rstrip (s : pystr) : pystr := rev (lstrip (rev s)).

Definition strip (s : pystr) : pystr := rstrip (lstrip s).

(** Truth value of a [str]: empty is false. *)
Definition truthy (s : pystr) : bool :=
  match s with [] => false | _ :: _ => true end.

Definition pystr_eqb (a b : pystr) : bool :=
  if list_eq_dec N.eq_dec a b then true else false.

(** ** [request.args]: an ordered multi-dict of query parameters *)

Definition MultiDict := list (pystr * pystr).

(** [args.get(key, default)]: the first value stored under [key]. *)
Fixpoint args_get (args : MultiDict) (key default : pystr) : pystr :=
  match args with
  | [] => default
  | (k, v) :: rest => if pystr_eqb k key then v else args_get rest key default
  end.

(** ** Exceptions and results *)

Record PyException := mkExc { exc_type : string; exc_str : pystr }.

Inductive result (A : Type) : Type :=
| Ok (a : A)
| Raise (e : PyException).
Arguments Ok {A} a.
Arguments Raise {A} e.

Definition AttributeError (msg : pystr) : PyException := mkExc "AttributeError" msg.
Definition IndexError (msg : pystr) : PyException := mkExc "IndexError" msg.

(** Attribute lookup on [None]. *)
Definition none_has_no_attribute (attr : string) : PyException :=
  AttributeError (lit "'NoneType' object has no attribute '" ++ lit attr ++ lit "'").

(** ** Numbers and numpy arrays *)

(** A binary64 number. *)
Definition float64 := spec_float.

Definition prec64 : Z := 53.
Definition emax64 : Z := 1024.

Definition SF64mul : float64 -> float64 -> float64 := SFmul prec64 emax64.
Definition SF64div : float64 -> float64 -> float64 := SFdiv prec64 emax64.
Definition SF64sub : float64 -> float64 -> float64 := SFsub prec64 emax64.

(** The binary64 number of an integer; a zero takes the sign [s]. *)
Definition Z2SF (s : bool) (k : Z) : float64 :=
  match k with
  | Z0 => S754_zero s
  | _ => binary_normalize prec64 emax64 k 0 false
  end.

(** The exact value of a finite binary64 number. *)
Definition SF2Q (x : float64) : Q :=
  match x with
  | S754_finite s m e =>
      let v := match e with
               | Zneg p => Zpos m # (2 ^ p)
               | _ => inject_Z (Zpos m * 2 ^ e)
               end in
      if s then - v else v
  | _ => 0
  end.

(** Nearest integer, ties to even. *)
Definition rint (x : Q) : Z :=
  let n := Qnum x in
  let d := Zpos (Qden x) in
  let f := (n / d)%Z in
  match (2 * (n mod d) ?= d)%Z with
  | Lt => f
  | Gt => (f + 1)%Z
  | Eq => if Z.even f then f else (f + 1)%Z
  end.

(** [numpy.rint]: the integer nearest to a finite number, ties to even, as
    a binary64 number; zeros, infinities and NaN are returned as they are. *)
Definition np_rint (x : float64) : float64 :=
  match x with
  | S754_finite s _ _ => Z2SF s (rint (SF2Q x))
  | _ => x
  end.

Definition zero : float64 := S754_zero false.
Definition one : float64 := Z2SF false 1.
Definition hundred : float64 := Z2SF false 100.

(** [round(x, 2)] on a [numpy.float64]: scale by [10 ** 2], round to the
    nearest integer, unscale. *)
Definition round2 (x : float64) : float64 :=
  SF64div (np_rint (SF64mul x hundred)) hundred.

(** The binary64 number nearest to [n / d], which is what the decimal
    literal with that value denotes. *)
Definition dec (n d : Z) : float64 := SF64div (Z2SF false n) (Z2SF false d).

(** A 2-D float64 array: its shape and its items. *)
Record ndarray2 := mkArr2 { shape2 : nat * nat; item2 : nat -> nat -> float64 }.

(** A 1-D float64 array. *)
Record ndarray1 := mkArr1 { size1 : nat; item1 : nat -> float64 }.

Definition index_out_of_bounds (i axis size : nat) : PyException :=
  IndexError (lit "index " ++ str_nat i ++ lit " is out of bounds for axis "
              ++ str_nat axis ++ lit " with size " ++ str_nat size).

(** [a[:, 1]] *)
Definition column1 (a : ndarray2) : result ndarray1 :=
  let (rows, cols) := shape2 a in
  if (1 <? cols)%nat
  then Ok (mkArr1 rows (fun i => item2 a i 1%nat))
  else Raise (index_out_of_bounds 1 1 cols).

(** [v[0]] *)
Definition first (v : ndarray1) : result float64 :=
  if (0 <? size1 v)%nat
  then Ok (item1 v 0%nat)
  else Raise (index_out_of_bounds 0 0 (size1 v)).

(** ** JSON values and responses *)

#[warnings="-register-all"]
Inductive json : Type :=
| JStr (s : pystr)
| JNum (x : float64)
| JObj (members : list (pystr * json)).

(** Order of two [str] keys: lexicographic on code points. *)
Fixpoint pystr_compare (a b : pystr) : comparison :=
  match a, b with
  | [], [] => Eq
  | [], _ :: _ => Lt
  | _ :: _, [] => Gt
  | x :: a', y :: b' =>
      match N.compare x y with
      | Eq => pystr_compare a' b'
      | c => c
      end
  end.

Fixpoint insert_member (kv : pystr * json) (l : list (pystr * json))
  : list (pystr * json) :=
  match l with
  | [] => [kv]
  | kv' :: l' =>
      match pystr_compare (fst kv) (fst kv') with
      | Gt => kv' :: insert_member kv l'
      | _ => kv :: l
      end
  end.

(** [jsonify]: the body Flask serializes.  With the default
    [sort_keys = True] every object, nested ones included, has its members
    emitted in key order.  Strings and float64 numbers always serialize. *)
Fixpoint jsonify (d : json) : json :=
  match d with
  | JObj members =>
      JObj ((fix sorted (l : list (pystr * json)) : list (pystr * json) :=
               match l with
               | [] => []
               | (k, v) :: l' => insert_member (k, jsonify v) (sorted l')
               end) members)
  | _ => d
  end.

Definition Response := (json * nat)%type.

(** The numbers occurring anywhere in a JSON value. *)
Fixpoint json_numbers (j : json) : list float64 :=
  match j with
  | JStr _ => []
  | JNum x => [x]
  | JObj members =>
      (fix go (l : list (pystr * json)) : list float64 :=
         match l with
         | [] => []
         | (_, v) :: l' => json_numbers v ++ go l'
         end) members
  end.

(** The keys of an object, in order. *)
Definition json_keys (j : json) : list pystr :=
  match j with
  | JObj members => map fst members
  | _ => []
  end.

(** Member lookup. *)
Fixpoint assoc (key : pystr) (members : list (pystr * json)) : option json :=
  match members with
  | [] => None
  | (k, v) :: rest => if pystr_eqb k key then Some v else assoc key rest
  end.

Definition json_get (key : pystr) (j : json) : option json :=
  match j with
  | JObj members => assoc key members
  | _ => None
  end.

(** ** Dimensions, pickled objects and the model registry *)

Inductive Dimension := Toxic | SevereToxic | Obscene | Insult | Threat | IdentityHate.

Section Engine.

(** What a vectorizer returns: opaque to the handler, which only passes it
    on to the classifier. *)
Context {FeatureVector : Type}.

(** An unpickled object.  A call of either method returns or raises. *)
Record Obj := mkObj {
  transform : list pystr -> result FeatureVector;
  predict_proba : FeatureVector -> result ndarray2
}.

(** [open(file_path, "rb")] followed by [pickle.load]: the unpickled value,
    an object or [None], or the exception either call raised. *)
Definition FileSystem := pystr -> result (option Obj).

(** [load_pickle_file]: the unpickled value, or [None] and a line on
    stdout. *)
Definition load_pickle_file (fs : FileSystem) (file_path file_type : pystr)
  : option Obj * list pystr :=
  match fs file_path with
  | Ok v => (v, [])
  | Raise e =>
      (None, [lit "Error loading " ++ file_type ++ lit " from '" ++ file_path
              ++ lit "': " ++ exc_str e])
  end.

Definition model_dir : pystr := lit "model/".

(** The twelve module-level globals. *)
Record Models := mkModels {
  tox : option Obj;  sev : option Obj;  obs : option Obj;
  ins : option Obj;  thr : option Obj;  ide : option Obj;
  tox_model : option Obj;  sev_model : option Obj;  obs_model : option Obj;
  ins_model : option Obj;  thr_model : option Obj;  ide_model : option Obj
}.

(** File stem and display name of a dimension, as the load calls spell them. *)
Definition stem (d : Dimension) : pystr :=
  match d with
  | Toxic => lit "toxic" | SevereToxic => lit "severe_toxic"
  | Obscene => lit "obscene" | Insult => lit "insult"
  | Threat => lit "threat" | IdentityHate => lit "identity_hate"
  end.

Definition display (d : Dimension) : pystr :=
  match d with
  | Toxic => lit "toxic" | SevereToxic => lit "severe toxic"
  | Obscene => lit "obscene" | Insult => lit "insult"
  | Threat => lit "threat" | IdentityHate => lit "identity hate"
  end.

Definition vect_path (d : Dimension) : pystr := model_dir ++ stem d ++ lit "_vect.pkl".
Definition model_path (d : Dimension) : pystr := model_dir ++ stem d ++ lit "_model.pkl".

Definition load_vect (fs : FileSystem) (d : Dimension) :=
  load_pickle_file fs (vect_path d) (display d ++ lit " vectorizer").
Definition load_model (fs : FileSystem) (d : Dimension) :=
  load_pickle_file fs (model_path d) (display d ++ lit " model").

(** Module initialisation: the twelve loads in source order, with what they
    printed. *)
Definition load_models (fs : FileSystem) : Models * list pystr :=
  let '(tox, o1) := load_vect fs Toxic in
  let '(sev, o2) := load_vect fs SevereToxic in
  let '(obs, o3) := load_vect fs Obscene in
  let '(ins, o4) := load_vect fs Insult in
  let '(thr, o5) := load_vect fs Threat in
  let '(ide, o6) := load_vect fs IdentityHate in
  let '(tox_model, o7) := load_model fs Toxic in
  let '(sev_model, o8) := load_model fs SevereToxic in
  let '(obs_model, o9) := load_model fs Obscene in
  let '(ins_model, o10) := load_model fs Insult in
  let '(thr_model, o11) := load_model fs Threat in
  let '(ide_model, o12) := load_model fs IdentityHate in
  (mkModels tox sev obs ins thr ide
            tox_model sev_model obs_model ins_model thr_model ide_model,
   o1 ++ o2 ++ o3 ++ o4 ++ o5 ++ o6 ++ o7 ++ o8 ++ o9 ++ o10 ++ o11 ++ o12).

(** The global holding a dimension's vectorizer, and the one holding its
    classifier. *)
Definition extractor (m : Models) (d : Dimension) : option Obj :=
  match d with
  | Toxic => tox m | SevereToxic => sev m | Obscene => obs m
  | Insult => ins m | Threat => thr m | IdentityHate => ide m
  end.

Definition classifier (m : Models) (d : Dimension) : option Obj :=
  match d with
  | Toxic => tox_model m | SevereToxic => sev_model m | Obscene => obs_model m
  | Insult => ins_model m | Threat => thr_model m | IdentityHate => ide_model m
  end.

(** ** The handler's effects: a trace of model invocations, and exceptions *)

Inductive Event :=
| CallTransform (d : Dimension) (data : list pystr)
| CallPredictProba (d : Dimension) (vect : FeatureVector).

Definition Trace := list Event.

Definition M (A : Type) : Type := Trace -> result A * Trace.

Definition ret {A} (a : A) : M A := fun tr => (Ok a, tr).

Definition bind {A B} (c : M A) (k : A -> M B) : M B :=
  fun tr =>
    match c tr with
    | (Ok a, tr') => k a tr'
    | (Raise e, tr') => (Raise e, tr')
    end.

Definition lift {A} (r : result A) : M A := fun tr => (r, tr).

(** [try: c  except Exception as e: h e] *)
Definition try_except {A} (c : M A) (h : PyException -> M A) : M A :=
  fun tr =>
    match c tr with
    | (Ok a, tr') => (Ok a, tr')
    | (Raise e, tr') => h e tr'
    end.

Notation "x <- c ;; k" := (bind c (fun x => k))
  (at level 61, c at next level, right associativity).

(** [g.transform(data)] on the global [g] of dimension [d]: attribute lookup
    on [None] raises before anything is invoked. *)
Definition call_transform (d : Dimension) (g : option Obj) (data : list pystr)
  : M FeatureVector :=
  fun tr =>
    match g with
    | None => (Raise (none_has_no_attribute "transform"), tr)
    | Some o => (transform o data, tr ++ [CallTransform d data])
    end.

(** [g.predict_proba(vect)] *)
Definition call_predict_proba (d : Dimension) (g : option Obj) (vect : FeatureVector)
  : M ndarray2 :=
  fun tr =>
    match g with
    | None => (Raise (none_has_no_attribute "predict_proba"), tr)
    | Some o => (predict_proba o vect, tr ++ [CallPredictProba d vect])
    end.

(** ** [PredictToxicity.get] *)

Definition label (d : Dimension) : pystr :=
  match d with
  | Toxic => lit "Prob (Toxic)"
  | SevereToxic => lit "Prob (Severe Toxic)"
  | Obscene => lit "Prob (Obscene)"
  | Insult => lit "Prob (Insult)"
  | Threat => lit "Prob (Threat)"
  | IdentityHate => lit "Prob (Identity Hate)"
  end.

(** The body of the [try] block. *)
Definition predict (m : Models) (text : pystr) : M Response :=
  let data := [text] in
  vect <- call_transform Toxic (tox m) data ;;
  p <- call_predict_proba Toxic (tox_model m) vect ;;
  pred_tox <- lift (column1 p) ;;
  vect <- call_transform SevereToxic (sev m) data ;;
  p <- call_predict_proba SevereToxic (sev_model m) vect ;;
  pred_sev <- lift (column1 p) ;;
  vect <- call_transform Obscene (obs m) data ;;
  p <- call_predict_proba Obscene (obs_model m) vect ;;
  pred_obs <- lift (column1 p) ;;
  vect <- call_transform Threat (thr m) data ;;
  p <- call_predict_proba Threat (thr_model m) vect ;;
  pred_thr <- lift (column1 p) ;;
  vect <- call_transform Insult (ins m) data ;;
  p <- call_predict_proba Insult (ins_model m) vect ;;
  pred_ins <- lift (column1 p) ;;
  vect <- call_transform IdentityHate (ide m) data ;;
  p <- call_predict_proba IdentityHate (ide_model m) vect ;;
  pred_ide <- lift (column1 p) ;;
  x <- lift (first pred_tox) ;; let out_tox := round2 x in
  x <- lift (first pred_sev) ;; let out_sev := round2 x in
  x <- lift (first pred_obs) ;; let out_obs := round2 x in
  x <- lift (first pred_ins) ;; let out_ins := round2 x in
  x <- lift (first pred_thr) ;; let out_thr := round2 x in
  x <- lift (first pred_ide) ;; let out_ide := round2 x in
  let response :=
    JObj [ (lit "original_text", JStr text);
           (lit "toxicity_results",
            JObj [ (lit "Prob (Toxic)", JNum out_tox);
                   (lit "Prob (Severe Toxic)", JNum out_sev);
                   (lit "Prob (Obscene)", JNum out_obs);
                   (lit "Prob (Insult)", JNum out_ins);
                   (lit "Prob (Threat)", JNum out_thr);
                   (lit "Prob (Identity Hate)", JNum out_ide) ]) ] in
  ret (jsonify response, 200%nat).

Definition error_body (msg : pystr) : json := JObj [ (lit "error", JStr msg) ].

(** [request.args.get('text', '').strip()] *)
Definition request_text (args : MultiDict) : pystr :=
  strip (args_get args (lit "text") (lit "")).

Definition get (m : Models) (args : MultiDict) : M Response :=
  let text := request_text args in
  if negb (truthy text)
  then ret (jsonify (error_body (lit "Text is required")), 400%nat)
  else
    try_except (predict m text)
      (fun e =>
         ret (jsonify (error_body (lit "Error during prediction: " ++ exc_str e)),
              500%nat)).

(** ** One dimension at a time

    What the handler computes for a single dimension, read off the three
    lines that mention it: the vectorizer's output, the positive-class
    column of the classifier's output, and its first entry (unrounded). *)

Definition features (m : Models) (d : Dimension) (text : pystr) : result FeatureVector :=
  match extractor m d with
  | None => Raise (none_has_no_attribute "transform")
  | Some o => transform o [text]
  end.

Definition probabilities (m : Models) (d : Dimension) (text : pystr) : result ndarray1 :=
  match features m d text with
  | Raise e => Raise e
  | Ok vect =>
      match classifier m d with
      | None => Raise (none_has_no_attribute "predict_proba")
      | Some o =>
          match predict_proba o vect with
          | Raise e => Raise e
          | Ok p => column1 p
          end
      end
  end.

Definition score (m : Models) (d : Dimension) (text : pystr) : result float64 :=
  match probabilities m d text with
  | Raise e => Raise e
  | Ok pred => first pred
  end.

(** A computation is oblivious when neither its result nor the events it
    appends depend on the trace it starts from. *)
Definition oblivious {A} (c : M A) : Prop :=
  exists r evs, forall tr, c tr = (r, tr ++ evs).

(** The invocations a computation makes, started on an empty trace. *)
Definition invocations {A} (c : M A) : Trace := snd (c []).

(** The [response] dict assembled from six unrounded probabilities, and the
    report [jsonify] makes of it. *)
Definition response_dict (text : pystr) (p : Dimension -> float64) : json :=
  JObj [ (lit "original_text", JStr text);
         (lit "toxicity_results",
          JObj [ (label Toxic, JNum (round2 (p Toxic)));
                 (label SevereToxic, JNum (round2 (p SevereToxic)));
                 (label Obscene, JNum (round2 (p Obscene)));
                 (label Insult, JNum (round2 (p Insult)));
                 (label Threat, JNum (round2 (p Threat)));
                 (label IdentityHate, JNum (round2 (p IdentityHate))) ]) ].

Definition report (text : pystr) (p : Dimension -> float64) : json :=
  jsonify (response_dict text p).

(** The invocations of a fully successful call, in the order the source
    makes them (threat before insult). *)
Definition calls_in_order (text : pystr) (v : Dimension -> FeatureVector) : Trace :=
  [ CallTransform Toxic [text];        CallPredictProba Toxic (v Toxic);
    CallTransform SevereToxic [text];  CallPredictProba SevereToxic (v SevereToxic);
    CallTransform Obscene [text];      CallPredictProba Obscene (v Obscene);
    CallTransform Threat [text];       CallPredictProba Threat (v Threat);
    CallTransform Insult [text];       CallPredictProba Insult (v Insult);
    CallTransform IdentityHate [text]; CallPredictProba IdentityHate (v IdentityHate) ].

(** The dimension an event belongs to. *)
Definition event_dimension (ev : Event) : Dimension :=
  match ev with
  | CallTransform d _ => d
  | CallPredictProba d _ => d
  end.

(** Which method of which dimension an event invoked. *)
Inductive Method := Transform | PredictProba.

Definition callee (ev : Event) : Method * Dimension :=
  match ev with
  | CallTransform d _ => (Transform, d)
  | CallPredictProba d _ => (PredictProba, d)
  end.

(** The twelve call sites of the [try] block, top to bottom. *)
Definition call_sites : list (Method * Dimension) :=
  [ (Transform, Toxic);        (PredictProba, Toxic);
    (Transform, SevereToxic);  (PredictProba, SevereToxic);
    (Transform, Obscene);      (PredictProba, Obscene);
    (Transform, Threat);       (PredictProba, Threat);
    (Transform, Insult);       (PredictProba, Insult);
    (Transform, IdentityHate); (PredictProba, IdentityHate) ].

(** Rank of a dimension among the prediction statements (threat comes
    before insult there). *)
Definition call_position (d : Dimension) : nat :=
  match d with
  | Toxic => 0 | SevereToxic => 1 | Obscene => 2
  | Threat => 3 | Insult => 4 | IdentityHate => 5
  end.

End Engine.

Arguments Obj FeatureVector : clear implicits.
Arguments FileSystem FeatureVector : clear implicits.
Arguments Models FeatureVector : clear implicits.
Arguments Event FeatureVector : clear implicits.
Arguments Trace FeatureVector : clear implicits.
Arguments M FeatureVector A : clear implicits.

(** ** The handler over objects with state

    The same handler, for loaded objects whose methods read and write the
    state of the process: a call returns or raises, and leaves a new state
    behind.  The handler itself only threads that state through. *)

Module Stateful.
Section Engine.

Context {FeatureVector World : Type}.

Record Obj := mkObj {
  transform : World -> list pystr -> result FeatureVector * World;
  predict_proba : World -> FeatureVector -> result ndarray2 * World
}.

Record Models := mkModels {
  tox : option Obj;  sev : option Obj;  obs : option Obj;
  ins : option Obj;  thr : option Obj;  ide : option Obj;
  tox_model : option Obj;  sev_model : option Obj;  obs_model : option Obj;
  ins_model : option Obj;  thr_model : option Obj;  ide_model : option Obj
}.

Definition M (A : Type) : Type := World -> result A * World.

Definition ret {A} (a : A) : M A := fun w => (Ok a, w).

Definition bind {A B} (c : M A) (k : A -> M B) : M B :=
  fun w =>
    match c w with
    | (Ok a, w') => k a w'
    | (Raise e, w') => (Raise e, w')
    end.

Definition lift {A} (r : result A) : M A := fun w => (r, w).

Definition try_except {A} (c : M A) (h : PyException -> M A) : M A :=
  fun w =>
    match c w with
    | (Ok a, w') => (Ok a, w')
    | (Raise e, w') => h e w'
    end.

Notation "x <- c ;; k" := (bind c (fun x => k))
  (at level 61, c at next level, right associativity).

Definition call_transform (g : option Obj) (data : list pystr) : M FeatureVector :=
  fun w =>
    match g with
    | None => (Raise (none_has_no_attribute "transform"), w)
    | Some o => transform o w data
    end.

Definition call_predict_proba (g : option Obj) (vect : FeatureVector) : M ndarray2 :=
  fun w =>
    match g with
    | None => (Raise (none_has_no_attribute "predict_proba"), w)
    | Some o => predict_proba o w vect
    end.

Definition predict (m : Models) (text : pystr) : M Response :=
  let data := [text] in
  vect <- call_transform (tox m) data ;;
  p <- call_predict_proba (tox_model m) vect ;;
  pred_tox <- lift (column1 p) ;;
  vect <- call_transform (sev m) data ;;
  p <- call_predict_proba (sev_model m) vect ;;
  pred_sev <- lift (column1 p) ;;
  vect <- call_transform (obs m) data ;;
  p <- call_predict_proba (obs_model m) vect ;;
  pred_obs <- lift (column1 p) ;;
  vect <- call_transform (thr m) data ;;
  p <- call_predict_proba (thr_model m) vect ;;
  pred_thr <- lift (column1 p) ;;
  vect <- call_transform (ins m) data ;;
  p <- call_predict_proba (ins_model m) vect ;;
  pred_ins <- lift (column1 p) ;;
  vect <- call_transform (ide m) data ;;
  p <- call_predict_proba (ide_model m) vect ;;
  pred_ide <- lift (column1 p) ;;
  x <- lift (first pred_tox) ;; let out_tox := round2 x in
  x <- lift (first pred_sev) ;; let out_sev := round2 x in
  x <- lift (first pred_obs) ;; let out_obs := round2 x in
  x <- lift (first pred_ins) ;; let out_ins := round2 x in
  x <- lift (first pred_thr) ;; let out_thr := round2 x in
  x <- lift (first pred_ide) ;; let out_ide := round2 x in
  let response :=
    JObj [ (lit "original_text", JStr text);
           (lit "toxicity_results",
            JObj [ (lit "Prob (Toxic)", JNum out_tox);
                   (lit "Prob (Severe Toxic)", JNum out_sev);
                   (lit "Prob (Obscene)", JNum out_obs);
                   (lit "Prob (Insult)", JNum out_ins);
                   (lit "Prob (Threat)", JNum out_thr);
                   (lit "Prob (Identity Hate)", JNum out_ide) ]) ] in
  ret (jsonify response, 200%nat).

Definition get (m : Models) (args : MultiDict) : M Response :=
  let text := request_text args in
  if negb (truthy text)
  then ret (jsonify (error_body (lit "Text is required")), 400%nat)
  else
    try_except (predict m text)
      (fun e =>
         ret (jsonify (error_body (lit "Error during prediction: " ++ exc_str e)),
              500%nat)).

End Engine.

Arguments Obj FeatureVector World : clear implicits.
Arguments Models FeatureVector World : clear implicits.
Arguments M World A : clear implicits.

End Stateful.

Section Purity.

Context {FeatureVector World : Type}.

(** A stateful object treated as a pure function: what each method
    returns or raises depends on its argument only, and is what the pure
    object [f] answers.  The state it leaves behind is not constrained. *)
Definition answers_like (o : Stateful.Obj FeatureVector World) (f : Obj FeatureVector)
  : Prop :=
  (forall w data, fst (Stateful.transform o w data) = transform f data)
  /\ (forall w vect, fst (Stateful.predict_proba o w vect) = predict_proba f vect).

Definition same_global (g : option (Stateful.Obj FeatureVector World))
    (h : option (Obj FeatureVector)) : Prop :=
  match g, h with
  | None, None => True
  | Some o, Some f => answers_like o f
  | _, _ => False
  end.

(** The twelve globals, each treated as a pure function. *)
Definition pure_models (ms : Stateful.Models FeatureVector World)
    (m : Models FeatureVector) : Prop :=
  same_global (Stateful.tox ms) (tox m)
  /\ same_global (Stateful.sev ms) (sev m)
  /\ same_global (Stateful.obs ms) (obs m)
  /\ same_global (Stateful.ins ms) (ins m)
  /\ same_global (Stateful.thr ms) (thr m)
  /\ same_global (Stateful.ide ms) (ide m)
  /\ same_global (Stateful.tox_model ms) (tox_model m)
  /\ same_global (Stateful.sev_model ms) (sev_model m)
  /\ same_global (Stateful.obs_model ms) (obs_model m)
  /\ same_global (Stateful.ins_model ms) (ins_model m)
  /\ same_global (Stateful.thr_model ms) (thr_model m)
  /\ same_global (Stateful.ide_model ms) (ide_model m).

(** A stateful computation and a traced one that return or raise the
    same, whatever state and trace they start from. *)
Definition agree {A} (cs : Stateful.M World A) (c : M FeatureVector A) : Prop :=
  forall w tr, fst (cs w) = fst (c tr).

End Purity.

(** ** Test doubles *)

(** A classifier that answers one row [[1 - p, p]] whatever the vector. *)
Definition constant_proba (p : float64) : ndarray2 :=
  mkArr2 (1%nat, 2%nat) (fun _ j => if (j =? 1)%nat then p else SF64sub one p).

(** Vectorizer double: one length per document.  Classifier double: a
    constant probability. *)
Definition stub (p : float64) : Obj (list nat) :=
  mkObj (fun data => Ok (map (@List.length N) data))
        (fun _ => Ok (constant_proba p)).

(** The fixed stub of the worked example. *)
Definition stub_models : Models (list nat) :=
  mkModels (Some (stub zero)) (Some (stub zero)) (Some (stub zero))
           (Some (stub zero)) (Some (stub zero)) (Some (stub zero))
           (Some (stub (dec 873 1000))) (Some (stub (dec 12 1000)))
           (Some (stub (dec 501 1000))) (Some (stub (dec 499 1000)))
           (Some (stub (dec 4 1000))) (Some (stub (dec 200 1000))).

(** What the stub registry's classifiers answer. *)
Definition stub_scores (d : Dimension) : float64 :=
  match d with
  | Toxic => dec 873 1000 | SevereToxic => dec 12 1000 | Obscene => dec 501 1000
  | Insult => dec 499 1000 | Threat => dec 4 1000 | IdentityHate => dec 200 1000
  end.

(** A text of blanks only: space, tab, no-break space, ideographic space. *)
Definition blank_query : MultiDict := [ (lit "text", [32; 9; 160; 12288]%N) ].

Definition FileNotFoundError (path : pystr) : PyException :=
  mkExc "FileNotFoundError"
        (lit "[Errno 2] No such file or directory: '" ++ path ++ lit "'").

(** A model directory where every file loads but one. *)
Definition fs_without (missing : pystr) : FileSystem (list nat) :=
  fun path =>
    if pystr_eqb path missing
    then Raise (FileNotFoundError path)
    else Ok (Some (stub (dec 1 4))).

(** A classifier double that raises. *)
Definition broken : Obj (list nat) :=
  mkObj (fun data => Ok (map (@List.length N) data))
        (fun _ => Raise (mkExc "ValueError" (lit "X has 1 features, but expecting 2")))%string.

Definition query (text : string) : MultiDict := [ (lit "text", lit text) ].

(** The stub registry with the threat classifier replaced by one that raises. *)
Definition threat_broken : Models (list nat) :=
  mkModels (tox stub_models) (sev stub_models) (obs stub_models)
           (ins stub_models) (thr stub_models) (ide stub_models)
           (tox_model stub_models) (sev_model stub_models) (obs_model stub_models)
           (ins_model stub_models) (Some broken) (ide_model stub_models).

(** Classifier doubles with a malformed answer: no row, or a single column. *)
Definition no_rows : Obj (list nat) :=
  mkObj (fun data => Ok (map (@List.length N) data))
        (fun _ => Ok (mkArr2 (0%nat, 2%nat) (fun _ _ => zero))).

Definition one_column : Obj (list nat) :=
  mkObj (fun data => Ok (map (@List.length N) data))
        (fun _ => Ok (mkArr2 (1%nat, 1%nat) (fun _ _ => one))).

(** The stub registry with one classifier replaced. *)
Definition with_classifier (d : Dimension) (o : option (Obj (list nat)))
  : Models (list nat) :=
  let pick d' := match d, d' with
                 | Toxic, Toxic | SevereToxic, SevereToxic | Obscene, Obscene
                 | Insult, Insult | Threat, Threat | IdentityHate, IdentityHate => o
                 | _, _ => classifier stub_models d'
                 end in
  mkModels (tox stub_models) (sev stub_models) (obs stub_models)
           (ins stub_models) (thr stub_models) (ide stub_models)
           (pick Toxic) (pick SevereToxic) (pick Obscene)
           (pick Insult) (pick Threat) (pick IdentityHate).

(** The keys of [toxicity_results] in a response, in the order emitted. *)
Definition toxicity_keys (r : result Response) : list pystr :=
  match r with
  | Ok (body, _) =>
      match json_get (lit "toxicity_results") body with
      | Some results => json_keys results
      | None => []
      end
  | Raise _ => []
  end.

(** Stateful doubles, the state being a count of the calls made: one that
    answers like [stub p] whatever the count, and a classifier whose
    answer drifts with it. *)
Definition counting (p : float64) : Stateful.Obj (list nat) nat :=
  Stateful.mkObj
    (fun w data => (Ok (map (@List.length N) data), S w))
    (fun w _ => (Ok (constant_proba p), S w)).

Definition drifting : Stateful.Obj (list nat) nat :=
  Stateful.mkObj
    (fun w data => (Ok (map (@List.length N) data), S w))
    (fun w _ => (Ok (constant_proba (if (w <? 12)%nat then dec 1 4 else dec 3 4)), S w)).

Definition counting_models : Stateful.Models (list nat) nat :=
  Stateful.mkModels
    (Some (counting zero)) (Some (counting zero)) (Some (counting zero))
    (Some (counting zero)) (Some (counting zero)) (Some (counting zero))
    (Some (counting (dec 873 1000))) (Some (counting (dec 12 1000)))
    (Some (counting (dec 501 1000))) (Some (counting (dec 499 1000)))
    (Some (counting (dec 4 1000))) (Some (counting (dec 200 1000))).

Definition drifting_models : Stateful.Models (list nat) nat :=
  Stateful.mkModels
    (Some (counting zero)) (Some (counting zero)) (Some (counting zero))
    (Some (counting zero)) (Some (counting zero)) (Some (counting zero))
    (Some drifting) (Some (counting (dec 12 1000)))
    (Some (counting (dec 501 1000))) (Some (counting (dec 499 1000)))
    (Some (counting (dec 4 1000))) (Some (counting (dec 200 1000))).

Definition server_error (e : PyException) : Response :=
  (error_body (lit "Error during prediction: " ++ exc_str e), 500%nat).

Definition client_error : Response :=
  (error_body (lit "Text is required"), 400%nat).

(** * Properties *)

(** ** Trimming *)

Lemma lstrip_blank (s : pystr) :
  forallb Py_UNICODE_ISSPACE s = true -> lstrip s = [].
Proof.
  induction s as [|c s IH]; simpl; [reflexivity|].
  intros H. apply andb_prop in H as [Hc Hs].
  rewrite Hc. auto.
Qed.

Lemma strip_blank (s : pystr) :
  forallb Py_UNICODE_ISSPACE s = true -> strip s = [].
Proof.
  intros H. unfold strip, rstrip. rewrite (lstrip_blank s H). reflexivity.
Qed.

Lemma truthy_false (s : pystr) : truthy s = false <-> s = [].
Proof. destruct s; simpl; split; congruence. Qed.

(** What is left after [lstrip] does not start with whitespace. *)
Lemma lstrip_fixed (s : pystr) : lstrip (lstrip s) = lstrip s.
Proof.
  induction s as [|c s IH]; simpl; [reflexivity|].
  destruct (Py_UNICODE_ISSPACE c) eqn:E; [exact IH|].
  simpl. rewrite E. reflexivity.
Qed.

Lemma lstrip_suffix (s : pystr) : exists p, s = p ++ lstrip s.
Proof.
  induction s as [|c s [p IH]]; simpl.
  - exists []. reflexivity.
  - destruct (Py_UNICODE_ISSPACE c).
    + exists (c :: p). simpl. congruence.
    + exists []. reflexivity.
Qed.

(** Dropping leading whitespace commutes with dropping trailing whitespace
    from a string that keeps a non-blank character. *)
Lemma lstrip_app (p s : pystr) :
  lstrip p <> [] -> lstrip (p ++ s) = lstrip p ++ s.
Proof.
  induction p as [|c p IH]; simpl; [congruence|].
  destruct (Py_UNICODE_ISSPACE c); auto.
Qed.

Lemma strip_idempotent (s : pystr) : strip (strip s) = strip s.
Proof.
  unfold strip, rstrip.
  set (t := lstrip s).
  assert (Ht : lstrip t = t) by apply lstrip_fixed.
  destruct (lstrip (rev t)) as [|c u] eqn:E; [reflexivity|].
  assert (Hl : lstrip (rev (c :: u)) = rev (c :: u)).
  { destruct (lstrip_suffix (rev t)) as [p Hp]. rewrite E in Hp.
    assert (Hr : t = rev (c :: u) ++ rev p).
    { rewrite <- rev_app_distr, <- Hp, rev_involutive. reflexivity. }
    destruct (lstrip (rev (c :: u))) as [|c' u'] eqn:E'.
    - exfalso.
      assert (Hb : forall q r, lstrip q = [] -> lstrip (q ++ r) = lstrip r).
      { induction q as [|a q IHq]; simpl; intros r Hq; [reflexivity|].
        destruct (Py_UNICODE_ISSPACE a); [auto|discriminate]. }
      assert (Hlen : (List.length (lstrip (rev p)) <= List.length (rev p))%nat).
      { destruct (lstrip_suffix (rev p)) as [p' Hp'].
        rewrite Hp' at 2. rewrite length_app. lia. }
      rewrite Hr in Ht. rewrite (Hb _ _ E') in Ht.
      apply (f_equal (@List.length N)) in Ht.
      rewrite length_app in Ht. simpl in Ht.
      rewrite length_app in Ht. simpl in Ht. lia.
    - rewrite <- E'.
      assert (Hne : lstrip (rev (c :: u)) <> []) by (rewrite E'; discriminate).
      destruct (lstrip_suffix (rev (c :: u))) as [q Hq].
      destruct q as [|a q]; [simpl in Hq; symmetry; exact Hq|].
      exfalso.
      (* a leading blank of [rev (c :: u)] would be a leading blank of [t] *)
      rewrite Hr in Ht. rewrite (lstrip_app _ _ Hne) in Ht.
      apply app_inv_tail in Ht.
      rewrite Ht in Hq. apply (f_equal (@List.length N)) in Hq.
      rewrite length_app in Hq. simpl in Hq. lia. }
  rewrite Hl, rev_involutive.
  assert (Hcu : lstrip (c :: u) = c :: u).
  { rewrite <- E. apply lstrip_fixed. }
  rewrite Hcu. reflexivity.
Qed.

(** Blank strings are exactly the ones [strip] empties. *)
Lemma lstrip_head (s : pystr) c u :
  lstrip s = c :: u -> Py_UNICODE_ISSPACE c = false.
Proof.
  induction s as [|a s IH]; simpl; [discriminate|].
  destruct (Py_UNICODE_ISSPACE a) eqn:E; [exact IH|].
  intros H. injection H as <- _. exact E.
Qed.

Lemma lstrip_split (s : pystr) :
  exists pre, s = pre ++ lstrip s /\ forallb Py_UNICODE_ISSPACE pre = true.
Proof.
  induction s as [|c s (pre & Hs & Hpre)]; simpl.
  - exists []. auto.
  - destruct (Py_UNICODE_ISSPACE c) eqn:E.
    + exists (c :: pre). simpl. rewrite E, Hpre. split; [f_equal; exact Hs|reflexivity].
    + exists []. auto.
Qed.

Lemma lstrip_nil (s : pystr) :
  lstrip s = [] -> forallb Py_UNICODE_ISSPACE s = true.
Proof.
  intros H. destruct (lstrip_split s) as (pre & Hs & Hpre).
  rewrite H, app_nil_r in Hs. rewrite Hs. exact Hpre.
Qed.

Lemma forallb_rev {A} (f : A -> bool) (l : list A) :
  forallb f (rev l) = forallb f l.
Proof.
  induction l as [|a l IH]; simpl; [reflexivity|].
  rewrite forallb_app, IH. simpl. rewrite andb_true_r. apply andb_comm.
Qed.

Lemma strip_nil (s : pystr) :
  strip s = [] -> forallb Py_UNICODE_ISSPACE s = true.
Proof.
  unfold strip, rstrip. intros H.
  apply (f_equal (@rev N)) in H. rewrite rev_involutive in H. simpl in H.
  apply lstrip_nil in H. rewrite forallb_rev in H.
  destruct (lstrip s) as [|c u] eqn:E; [apply lstrip_nil; exact E|].
  apply lstrip_head in E. simpl in H. rewrite E in H. discriminate.
Qed.

(** [strip] cuts a blank prefix and a blank suffix and nothing else. *)
Lemma strip_split (s : pystr) :
  exists pre post,
    s = pre ++ strip s ++ post
    /\ forallb Py_UNICODE_ISSPACE pre = true
    /\ forallb Py_UNICODE_ISSPACE post = true.
Proof.
  destruct (lstrip_split s) as (pre & Hs & Hpre).
  destruct (lstrip_split (rev (lstrip s))) as (q & Hq & Hqb).
  exists pre, (rev q). split; [|split; [exact Hpre|rewrite forallb_rev; exact Hqb]].
  unfold strip, rstrip. rewrite <- rev_app_distr, <- Hq, rev_involutive. exact Hs.
Qed.

Lemma strip_head (s : pystr) c u :
  strip s = c :: u -> Py_UNICODE_ISSPACE c = false.
Proof.
  intros H. destruct (strip_split (lstrip s)) as (pre & post & Hs & Hpre & _).
  assert (Hfix : strip (lstrip s) = strip s).
  { unfold strip. rewrite lstrip_fixed. reflexivity. }
  rewrite Hfix, H in Hs.
  destruct pre as [|a pre].
  - simpl in Hs. eapply lstrip_head. exact Hs.
  - simpl in Hs, Hpre. apply andb_prop in Hpre as [Ha _].
    apply lstrip_head in Hs. congruence.
Qed.

Lemma strip_last (s : pystr) u c :
  strip s = u ++ [c] -> Py_UNICODE_ISSPACE c = false.
Proof.
  unfold strip, rstrip. intros H.
  apply (f_equal (@rev N)) in H. rewrite rev_involutive, rev_app_distr in H.
  simpl in H. eapply lstrip_head. exact H.
Qed.

(** ** Rounding *)




(** ** Binary64 rounding *)













(** ** The handler *)

Section EngineProperties.

Context {FeatureVector : Type}.
Implicit Types (m : Models FeatureVector) (tr : Trace FeatureVector).
Implicit Types (args : MultiDict) (text : pystr) (d : Dimension).

(** *** The trace is write-only *)

Lemma oblivious_ret {A} (a : A) : oblivious (FeatureVector := FeatureVector) (ret a).
Proof. exists (Ok a), []. intros tr. unfold ret. rewrite app_nil_r. reflexivity. Qed.

Lemma oblivious_lift {A} (r : result A) :
  oblivious (FeatureVector := FeatureVector) (lift r).
Proof. exists r, []. intros tr. unfold lift. rewrite app_nil_r. reflexivity. Qed.

Lemma oblivious_call_transform d (g : option (Obj FeatureVector)) data :
  oblivious (call_transform d g data).
Proof.
  destruct g as [o|]; unfold call_transform.
  - exists (transform o data), [CallTransform d data]. reflexivity.
  - eexists _, []. intros tr. rewrite app_nil_r. reflexivity.
Qed.

Lemma oblivious_call_predict_proba d (g : option (Obj FeatureVector)) vect :
  oblivious (call_predict_proba d g vect).
Proof.
  destruct g as [o|]; unfold call_predict_proba.
  - exists (predict_proba o vect), [CallPredictProba d vect]. reflexivity.
  - eexists _, []. intros tr. rewrite app_nil_r. reflexivity.
Qed.

Lemma oblivious_bind {A B} (c : M FeatureVector A) (k : A -> M FeatureVector B) :
  oblivious c -> (forall a, oblivious (k a)) -> oblivious (bind c k).
Proof.
  intros (r & evs & Hc) Hk. destruct r as [a|e].
  - destruct (Hk a) as (r' & evs' & Hk').
    exists r', (evs ++ evs'). intros tr. unfold bind.
    rewrite Hc, Hk', app_assoc. reflexivity.
  - exists (Raise e), evs. intros tr. unfold bind. rewrite Hc. reflexivity.
Qed.

Lemma oblivious_try_except {A} (c : M FeatureVector A) h :
  oblivious c -> (forall e, oblivious (h e)) -> oblivious (try_except c h).
Proof.
  intros (r & evs & Hc) Hh. destruct r as [a|e].
  - exists (Ok a), evs. intros tr. unfold try_except. rewrite Hc. reflexivity.
  - destruct (Hh e) as (r' & evs' & Hh').
    exists r', (evs ++ evs'). intros tr. unfold try_except.
    rewrite Hc, Hh', app_assoc. reflexivity.
Qed.

Create HintDb oblivious.

#[local] Hint Resolve oblivious_ret oblivious_lift oblivious_call_transform
  oblivious_call_predict_proba : oblivious.

Lemma oblivious_predict m text : oblivious (predict m text).
Proof.
  unfold predict.
  repeat (apply oblivious_bind; [auto with oblivious | intros ?]).
  auto with oblivious.
Qed.

Lemma oblivious_get m args : oblivious (get m args).
Proof.
  unfold get. destruct (negb _).
  - auto with oblivious.
  - apply oblivious_try_except; [apply oblivious_predict | auto with oblivious].
Qed.

(** *** The [try] block, dimension by dimension *)

(** A dimension that scored went through every step of its pipeline. *)
Lemma score_ok_inv m d text q :
  score m d text = Ok q ->
  exists o c v a col,
    extractor m d = Some o /\ transform o [text] = Ok v /\
    classifier m d = Some c /\ predict_proba c v = Ok a /\
    column1 a = Ok col /\ first col = Ok q.
Proof.
  unfold score, probabilities, features.
  destruct (extractor m d) as [o|]; [|discriminate].
  destruct (transform o [text]) as [v|] eqn:Ev; [|discriminate].
  destruct (classifier m d) as [c|]; [|discriminate].
  destruct (predict_proba c v) as [a|] eqn:Ea; [|discriminate].
  destruct (column1 a) as [col|] eqn:Ec; [|discriminate].
  intros Hq. exists o, c, v, a, col. auto 10.
Qed.

Lemma features_of_score m d text q :
  score m d text = Ok q -> exists v, features m d text = Ok v.
Proof.
  intros H. destruct (score_ok_inv _ _ _ _ H) as (o & c & v & a & col & Ho & Hv & _).
  exists v. unfold features. rewrite Ho. exact Hv.
Qed.

Ltac use_equations :=
  repeat match goal with
         | H : ?l = _ |- context [?l] => rewrite H
         end.

(** Follow the block call by call: is the global loaded, did the call
    return. *)
Ltac run_predict :=
  repeat (cbn beta iota;
          match goal with
          | |- context [match ?x with Ok _ => _ | Raise _ => _ end] => destruct x eqn:?
          | |- context [match ?x with Some _ => _ | None => _ end] => destruct x eqn:?
          end);
  cbn beta iota.

(** Name the dimension whose pipeline raised. *)
Ltac blame d :=
  solve [ exists d; eexists; split; [|reflexivity];
          unfold score, probabilities, features; simpl extractor; simpl classifier;
          use_equations; reflexivity ].

Ltac open_predict :=
  unfold predict, bind, lift, ret, call_transform, call_predict_proba.

(** When all six dimensions score, the block returns the report and has
    made the twelve invocations in source order. *)
Lemma predict_ok m text (v : Dimension -> FeatureVector) (p : Dimension -> float64) :
  (forall d, features m d text = Ok (v d)) ->
  (forall d, score m d text = Ok (p d)) ->
  forall tr,
    predict m text tr = (Ok (report text p, 200%nat), tr ++ calls_in_order text v).
Proof.
  intros Hv Hp tr.
  assert (Hd : forall d, exists o c a col,
             extractor m d = Some o /\ transform o [text] = Ok (v d) /\
             classifier m d = Some c /\ predict_proba c (v d) = Ok a /\
             column1 a = Ok col /\ first col = Ok (p d)).
  { intros d.
    destruct (score_ok_inv _ _ _ _ (Hp d)) as (o & c & v' & a & col & Ho & Hv' & H).
    specialize (Hv d). unfold features in Hv. rewrite Ho, Hv' in Hv.
    injection Hv as ->. exists o, c, a, col. auto 10. }
  destruct (Hd Toxic) as (o1 & c1 & a1 & l1 & X1 & T1 & C1 & P1 & L1 & F1).
  destruct (Hd SevereToxic) as (o2 & c2 & a2 & l2 & X2 & T2 & C2 & P2 & L2 & F2).
  destruct (Hd Obscene) as (o3 & c3 & a3 & l3 & X3 & T3 & C3 & P3 & L3 & F3).
  destruct (Hd Insult) as (o4 & c4 & a4 & l4 & X4 & T4 & C4 & P4 & L4 & F4).
  destruct (Hd Threat) as (o5 & c5 & a5 & l5 & X5 & T5 & C5 & P5 & L5 & F5).
  destruct (Hd IdentityHate) as (o6 & c6 & a6 & l6 & X6 & T6 & C6 & P6 & L6 & F6).
  clear Hd Hv Hp. simpl in X1, X2, X3, X4, X5, X6, C1, C2, C3, C4, C5, C6.
  open_predict.
  rewrite X1, T1, C1, P1, L1, X2, T2, C2, P2, L2, X3, T3, C3, P3, L3.
  rewrite X5, T5, C5, P5, L5, X4, T4, C4, P4, L4, X6, T6, C6, P6, L6.
  rewrite F1, F2, F3, F4, F5, F6.
  unfold report, jsonify, calls_in_order. simpl label.
  repeat rewrite <- app_assoc. reflexivity.
Qed.

(** When some dimension fails, the block raises, and what it raises is the
    exception of a failing dimension. *)
Lemma predict_raise m text d e :
  score m d text = Raise e ->
  forall tr, exists d' e',
    score m d' text = Raise e' /\ fst (predict m text tr) = Raise e'.
Proof.
  intros H tr. open_predict. run_predict;
    try (first [blame Toxic | blame SevereToxic | blame Obscene
               | blame Insult | blame Threat | blame IdentityHate]).
  exfalso. destruct d; unfold score, probabilities, features in H;
    simpl extractor in H; simpl classifier in H;
    repeat match goal with
           | E : _ = Ok _ |- _ => rewrite E in H
           | E : _ = Some _ |- _ => rewrite E in H
           end; discriminate.
Qed.

(** Whether a dimension scores is decided, so the two lemmas above cover
    every run of the block. *)
Lemma predict_ok_inv m text tr resp :
  fst (predict m text tr) = Ok resp ->
  exists p, (forall d, score m d text = Ok (p d)) /\ resp = (report text p, 200%nat).
Proof.
  intros H.
  assert (Hall : forall d, exists q, score m d text = Ok q).
  { intros d. destruct (score m d text) as [q|e] eqn:E; [eauto|].
    destruct (predict_raise _ _ _ _ E tr) as (d' & e' & _ & Hr). congruence. }
  destruct (Hall Toxic) as [q1 Q1]. destruct (Hall SevereToxic) as [q2 Q2].
  destruct (Hall Obscene) as [q3 Q3]. destruct (Hall Insult) as [q4 Q4].
  destruct (Hall Threat) as [q5 Q5]. destruct (Hall IdentityHate) as [q6 Q6].
  set (p := fun d => match d with
                     | Toxic => q1 | SevereToxic => q2 | Obscene => q3
                     | Insult => q4 | Threat => q5 | IdentityHate => q6
                     end).
  assert (Hp : forall d, score m d text = Ok (p d)) by (intros []; assumption).
  destruct (features_of_score _ _ _ _ Q1) as [v1 V1].
  destruct (features_of_score _ _ _ _ Q2) as [v2 V2].
  destruct (features_of_score _ _ _ _ Q3) as [v3 V3].
  destruct (features_of_score _ _ _ _ Q4) as [v4 V4].
  destruct (features_of_score _ _ _ _ Q5) as [v5 V5].
  destruct (features_of_score _ _ _ _ Q6) as [v6 V6].
  set (v := fun d => match d with
                     | Toxic => v1 | SevereToxic => v2 | Obscene => v3
                     | Insult => v4 | Threat => v5 | IdentityHate => v6
                     end).
  assert (Hv : forall d, features m d text = Ok (v d)) by (intros []; assumption).
  exists p. split; [exact Hp|].
  rewrite (predict_ok _ _ v p Hv Hp) in H. simpl in H. congruence.
Qed.

(** *** What the block invokes *)

Ltac events_of H :=
  unfold invocations in H; revert H; open_predict; run_predict;
  cbn [snd app]; intros H;
  repeat (destruct H as [H|H]; [try congruence|]); try contradiction.

(** Every vectorizer is handed the one-element list holding the text. *)
Lemma predict_transform_data m text d data :
  In (CallTransform d data) (invocations (predict m text)) -> data = [text].
Proof.
  intros H. events_of H.
Qed.

(** A dimension whose vectorizer global is [None] is not invoked at all. *)
Lemma predict_skips_missing_extractor m text d :
  extractor m d = None ->
  forall ev, In ev (invocations (predict m text)) -> event_dimension ev <> d.
Proof.
  intros Hx ev H.
  destruct d; simpl in Hx; unfold invocations in H; revert H; open_predict;
    rewrite Hx; run_predict; cbn [snd app]; intros H;
    repeat (destruct H as [H|H]; [subst ev; simpl; discriminate|]);
    contradiction.
Qed.

(** *** Startup *)

Lemma load_pickle_file_value (fs : FileSystem FeatureVector) path ty :
  fst (load_pickle_file fs path ty)
  = match fs path with Ok v => v | Raise _ => None end.
Proof. unfold load_pickle_file. destruct (fs path); reflexivity. Qed.

Lemma load_vect_value (fs : FileSystem FeatureVector) d :
  fst (load_vect fs d)
  = match fs (vect_path d) with Ok v => v | Raise _ => None end.
Proof. apply load_pickle_file_value. Qed.

Lemma load_model_value (fs : FileSystem FeatureVector) d :
  fst (load_model fs d)
  = match fs (model_path d) with Ok v => v | Raise _ => None end.
Proof. apply load_pickle_file_value. Qed.

Lemma load_models_extractor (fs : FileSystem FeatureVector) d :
  extractor (fst (load_models fs)) d
  = match fs (vect_path d) with Ok v => v | Raise _ => None end.
Proof.
  unfold load_models.
  destruct (load_vect fs Toxic) eqn:E1, (load_vect fs SevereToxic) eqn:E2,
    (load_vect fs Obscene) eqn:E3, (load_vect fs Insult) eqn:E4,
    (load_vect fs Threat) eqn:E5, (load_vect fs IdentityHate) eqn:E6,
    (load_model fs Toxic), (load_model fs SevereToxic), (load_model fs Obscene),
    (load_model fs Insult), (load_model fs Threat), (load_model fs IdentityHate).
  destruct d; cbn [fst extractor tox sev obs ins thr ide];
    rewrite <- load_vect_value;
    first [rewrite E1 | rewrite E2 | rewrite E3 | rewrite E4 | rewrite E5 | rewrite E6];
    reflexivity.
Qed.

Lemma load_models_classifier (fs : FileSystem FeatureVector) d :
  classifier (fst (load_models fs)) d
  = match fs (model_path d) with Ok v => v | Raise _ => None end.
Proof.
  unfold load_models.
  destruct (load_vect fs Toxic), (load_vect fs SevereToxic),
    (load_vect fs Obscene), (load_vect fs Insult),
    (load_vect fs Threat), (load_vect fs IdentityHate),
    (load_model fs Toxic) eqn:E1, (load_model fs SevereToxic) eqn:E2,
    (load_model fs Obscene) eqn:E3, (load_model fs Insult) eqn:E4,
    (load_model fs Threat) eqn:E5, (load_model fs IdentityHate) eqn:E6.
  destruct d;
    cbn [fst classifier tox_model sev_model obs_model ins_model thr_model ide_model];
    rewrite <- load_model_value;
    first [rewrite E1 | rewrite E2 | rewrite E3 | rewrite E4 | rewrite E5 | rewrite E6];
    reflexivity.
Qed.

(** A dimension with a missing component cannot score. *)
Lemma score_unavailable m d text :
  extractor m d = None \/ classifier m d = None ->
  exists e, score m d text = Raise e.
Proof.
  unfold score, probabilities, features. intros [H|H]; rewrite H.
  - eauto.
  - destruct (extractor m d) as [o|]; [|eauto].
    destruct (transform o [text]); eauto.
Qed.

(** *** The handler around the block *)

Lemma get_blank m args tr :
  truthy (request_text args) = false ->
  get m args tr = (Ok client_error, tr).
Proof.
  intros H. unfold get. rewrite H. reflexivity.
Qed.

Lemma get_scoring m args tr :
  truthy (request_text args) = true ->
  get m args tr =
    match predict m (request_text args) tr with
    | (Ok a, tr') => (Ok a, tr')
    | (Raise e, tr') => (Ok (server_error e), tr')
    end.
Proof.
  intros H. unfold get. rewrite H. reflexivity.
Qed.

(** The handler always answers: nothing escapes the [except] clause. *)
Lemma get_returns m args tr : exists resp, fst (get m args tr) = Ok resp.
Proof.
  destruct (truthy (request_text args)) eqn:E.
  - rewrite (get_scoring _ _ _ E).
    destruct (predict m (request_text args) tr) as [[a|e] tr']; simpl; eauto.
  - rewrite (get_blank _ _ _ E). simpl. eauto.
Qed.

Lemma get_raise m args d e tr :
  truthy (request_text args) = true ->
  score m d (request_text args) = Raise e ->
  exists d' e',
    score m d' (request_text args) = Raise e' /\
    fst (get m args tr) = Ok (server_error e').
Proof.
  intros Ht Hs.
  destruct (predict_raise _ _ _ _ Hs tr) as (d' & e' & Hd' & Hp).
  exists d', e'. split; [exact Hd'|].
  rewrite (get_scoring _ _ _ Ht).
  destruct (predict m (request_text args) tr) as [r tr'].
  simpl in Hp. subst r. reflexivity.
Qed.

Lemma get_invocations m args :
  truthy (request_text args) = true ->
  invocations (get m args) = invocations (predict m (request_text args)).
Proof.
  intros Ht. unfold invocations. rewrite (get_scoring _ _ _ Ht).
  destruct (predict m (request_text args) []) as [[a|e] tr']; reflexivity.
Qed.

(** The report as [jsonify] emits it: members in key order. *)
Lemma report_sorted text (p : Dimension -> float64) :
  report text p
  = JObj [ (lit "original_text", JStr text);
           (lit "toxicity_results",
            JObj [ (lit "Prob (Identity Hate)", JNum (round2 (p IdentityHate)));
                   (lit "Prob (Insult)", JNum (round2 (p Insult)));
                   (lit "Prob (Obscene)", JNum (round2 (p Obscene)));
                   (lit "Prob (Severe Toxic)", JNum (round2 (p SevereToxic)));
                   (lit "Prob (Threat)", JNum (round2 (p Threat)));
                   (lit "Prob (Toxic)", JNum (round2 (p Toxic))) ]) ].
Proof.
  unfold report, response_dict.
  generalize (round2 (p Toxic)), (round2 (p SevereToxic)), (round2 (p Obscene)),
    (round2 (p Insult)), (round2 (p Threat)), (round2 (p IdentityHate)).
  intros q1 q2 q3 q4 q5 q6. reflexivity.
Qed.

(** Vectors for the dimensions that scored. *)
Lemma features_of_scores m text (p : Dimension -> float64) :
  (forall d, score m d text = Ok (p d)) ->
  exists v : Dimension -> FeatureVector, forall d, features m d text = Ok (v d).
Proof.
  intros Hp.
  destruct (features_of_score _ _ _ _ (Hp Toxic)) as [v1 V1].
  destruct (features_of_score _ _ _ _ (Hp SevereToxic)) as [v2 V2].
  destruct (features_of_score _ _ _ _ (Hp Obscene)) as [v3 V3].
  destruct (features_of_score _ _ _ _ (Hp Insult)) as [v4 V4].
  destruct (features_of_score _ _ _ _ (Hp Threat)) as [v5 V5].
  destruct (features_of_score _ _ _ _ (Hp IdentityHate)) as [v6 V6].
  exists (fun d => match d with
                   | Toxic => v1 | SevereToxic => v2 | Obscene => v3
                   | Insult => v4 | Threat => v5 | IdentityHate => v6
                   end).
  intros []; assumption.
Qed.

(** The response of a fully successful call. *)
Lemma get_report m args (p : Dimension -> float64) tr :
  truthy (request_text args) = true ->
  (forall d, score m d (request_text args) = Ok (p d)) ->
  fst (get m args tr) = Ok (report (request_text args) p, 200%nat).
Proof.
  intros Ht Hp. destruct (features_of_scores _ _ _ Hp) as [v Hv].
  rewrite (get_scoring _ _ _ Ht), (predict_ok _ _ v p Hv Hp). reflexivity.
Qed.


(** ** The claims *)

(** C1. All-or-nothing aggregation: for a text that is not blank, when the
    scoring of any one dimension raises, the call answers the single
    server-error response (status 500, one [error] member whose message
    carries the exception of a failing dimension), and no probability of
    the other dimensions appears in it. *)
Theorem all_or_nothing m args d e tr :
  truthy (request_text args) = true ->
  score m d (request_text args) = Raise e ->
  exists d' e',
    score m d' (request_text args) = Raise e' /\
    fst (get m args tr) = Ok (server_error e') /\
    json_keys (fst (server_error e')) = [lit "error"] /\
    json_numbers (fst (server_error e')) = [].
Proof.
  intros Ht Hs.
  destruct (get_raise _ _ _ _ tr Ht Hs) as (d' & e' & Hd' & Hg).
  exists d', e'. repeat split; assumption.
Qed.

(** C2. Empty-input short-circuit: when the text is empty or made of
    whitespace only, the call answers the client error "Text is required"
    (status 400) and leaves the trace as it found it: no [transform] and no
    [predict_proba] was invoked. *)
Theorem empty_input_short_circuit m args tr :
  forallb Py_UNICODE_ISSPACE (args_get args (lit "text") (lit "")) = true ->
  get m args tr = (Ok (error_body (lit "Text is required"), 400%nat), tr).
Proof.
  intros H. apply get_blank. unfold request_text.
  rewrite (strip_blank _ H). reflexivity.
Qed.

(** C5, as the code has it.  For a text that is not blank on which all six
    dimensions score, the response (status 200) is an object with
    [original_text] and [toxicity_results], the latter holding exactly the
    six labelled members, each the rounded score of its dimension.  The
    dict is built in display order, but [jsonify] emits the members in key
    order: Identity Hate, Insult, Obscene, Severe Toxic, Threat, Toxic. *)
Theorem success_report_shape m args (p : Dimension -> float64) tr :
  truthy (request_text args) = true ->
  (forall d, score m d (request_text args) = Ok (p d)) ->
  fst (get m args tr) =
    Ok (JObj [ (lit "original_text", JStr (request_text args));
               (lit "toxicity_results",
                JObj [ (lit "Prob (Identity Hate)", JNum (round2 (p IdentityHate)));
                       (lit "Prob (Insult)", JNum (round2 (p Insult)));
                       (lit "Prob (Obscene)", JNum (round2 (p Obscene)));
                       (lit "Prob (Severe Toxic)", JNum (round2 (p SevereToxic)));
                       (lit "Prob (Threat)", JNum (round2 (p Threat)));
                       (lit "Prob (Toxic)", JNum (round2 (p Toxic))) ]) ],
        200%nat).
Proof.
  intros Ht Hp. rewrite (get_report _ _ _ _ Ht Hp), report_sorted. reflexivity.
Qed.

(** C9. A request without a [text] parameter is handled like one whose
    [text] is the empty string: both answer the client error "Text is
    required" with status 400 and invoke no model. *)
Theorem missing_text_is_empty_text m args tr :
  (forall k v, In (k, v) args -> k <> lit "text") ->
  get m args tr = get m [(lit "text", lit "")] tr
  /\ get m args tr = (Ok (error_body (lit "Text is required"), 400%nat), tr).
Proof.
  intros Hk.
  assert (Hd : args_get args (lit "text") (lit "") = []).
  { induction args as [|[k v] rest IH]; [reflexivity|].
    simpl. unfold pystr_eqb.
    destruct (list_eq_dec N.eq_dec k (lit "text")) as [E|_].
    - exfalso. apply (Hk k v); [left; reflexivity|exact E].
    - apply IH. intros k' v' Hin. apply (Hk k' v'). right. exact Hin. }
  assert (He : forall a, args_get a (lit "text") (lit "") = [] ->
                         get m a tr = (Ok client_error, tr)).
  { intros a Ha. apply get_blank. unfold request_text. rewrite Ha. reflexivity. }
  split.
  - rewrite (He args Hd), (He [(lit "text", lit "")]); reflexivity.
  - apply (He args Hd).
Qed.

(** C4, as the code has it.  A dimension whose vectorizer or classifier
    file failed to load keeps [None] in its global; from then on every call
    whose text is not blank answers the generic server error (status 500,
    message of a failing dimension), and answers it again when repeated.
    Only a missing vectorizer keeps the whole dimension from running: then
    no method of that dimension is invoked. *)
Theorem unavailable_dimension_fails (fs : FileSystem FeatureVector) d args tr :
  (exists e, fs (vect_path d) = Raise e) \/ (exists e, fs (model_path d) = Raise e) ->
  truthy (request_text args) = true ->
  exists d' e',
    score (fst (load_models fs)) d' (request_text args) = Raise e' /\
    fst (get (fst (load_models fs)) args tr) = Ok (server_error e') /\
    fst (get (fst (load_models fs)) args (snd (get (fst (load_models fs)) args tr)))
      = Ok (server_error e') /\
    ((exists e, fs (vect_path d) = Raise e) ->
     forall ev, In ev (invocations (get (fst (load_models fs)) args)) ->
                event_dimension ev <> d).
Proof.
  intros Hload Ht. set (m := fst (load_models fs)).
  assert (Hnone : extractor m d = None \/ classifier m d = None).
  { unfold m. rewrite load_models_extractor, load_models_classifier.
    destruct Hload as [[e He]|[e He]]; rewrite He; auto. }
  destruct (score_unavailable m d (request_text args) Hnone) as [e Hs].
  destruct (get_raise _ _ _ _ tr Ht Hs) as (d' & e' & Hd' & Hg).
  exists d', e'. split; [exact Hd'|]. split; [exact Hg|]. split.
  - destruct (oblivious_get m args) as (r & evs & H).
    rewrite !H in *. exact Hg.
  - intros [e0 He0] ev Hin. rewrite (get_invocations _ _ Ht) in Hin.
    apply (predict_skips_missing_extractor m (request_text args) d); [|exact Hin].
    unfold m. rewrite load_models_extractor, He0. reflexivity.
Qed.


(** C8. Original-text preservation: in every successful response the
    [original_text] member is the request's text trimmed once, and that
    same trimmed text is what every vectorizer was handed; trimming it
    again would change nothing. *)
Theorem original_text_is_trimmed_input m args tr body :
  fst (get m args tr) = Ok (body, 200%nat) ->
  json_get (lit "original_text") body
    = Some (JStr (strip (args_get args (lit "text") (lit ""))))
  /\ (forall d data, In (CallTransform d data) (invocations (get m args)) ->
                     data = [strip (args_get args (lit "text") (lit ""))])
  /\ strip (strip (args_get args (lit "text") (lit "")))
     = strip (args_get args (lit "text") (lit "")).
Proof.
  intros H. fold (request_text args).
  destruct (truthy (request_text args)) eqn:Ht.
  - rewrite (get_scoring _ _ _ Ht) in H.
    destruct (predict m (request_text args) tr) as [[resp|e] tr'] eqn:Ep;
      simpl in H; [|discriminate].
    assert (Hok : fst (predict m (request_text args) tr) = Ok resp)
      by (rewrite Ep; reflexivity).
    destruct (predict_ok_inv _ _ _ _ Hok) as (p & _ & Hresp).
    assert (Hbody : body = report (request_text args) p) by congruence.
    split; [subst body; rewrite report_sorted; reflexivity|]. split.
    + intros d data Hin. rewrite (get_invocations _ _ Ht) in Hin.
      eapply predict_transform_data. exact Hin.
    + apply strip_idempotent.
  - rewrite (get_blank _ _ _ Ht) in H. discriminate.
Qed.

(** C10. Pairing of vectorizer and classifier: when all twelve globals are
    loaded and every call returns an array with a first row and a second
    column, the handler invokes, for each dimension, that dimension's
    vectorizer on the trimmed text and that dimension's classifier on the
    vector this vectorizer returned, and reports under the dimension's
    label the rounded entry in row 0, column 1 of that classifier's
    output. *)
Theorem extractor_classifier_pairing m args
    (ex cl : Dimension -> Obj FeatureVector)
    (v : Dimension -> FeatureVector) (a : Dimension -> ndarray2) tr :
  truthy (request_text args) = true ->
  (forall d, extractor m d = Some (ex d) /\ classifier m d = Some (cl d)) ->
  (forall d, transform (ex d) [request_text args] = Ok (v d)) ->
  (forall d, predict_proba (cl d) (v d) = Ok (a d)) ->
  (forall d, (0 < fst (shape2 (a d)))%nat /\ (1 < snd (shape2 (a d)))%nat) ->
  exists results,
    get m args tr
      = (Ok (JObj [ (lit "original_text", JStr (request_text args));
                    (lit "toxicity_results", JObj results) ], 200%nat),
         tr ++ calls_in_order (request_text args) v)
    /\ forall d, assoc (label d) results
                 = Some (JNum (round2 (item2 (a d) 0%nat 1%nat))).
Proof.
  intros Ht Hg Hv Ha Hshape.
  assert (Hf : forall d, features m d (request_text args) = Ok (v d)).
  { intros d. unfold features. destruct (Hg d) as [-> _]. apply Hv. }
  assert (Hs : forall d, score m d (request_text args)
                         = Ok (item2 (a d) 0%nat 1%nat)).
  { intros d. unfold score, probabilities. rewrite Hf.
    destruct (Hg d) as [_ ->]. rewrite Ha.
    destruct (Hshape d) as [Hrows Hcols].
    unfold column1. destruct (shape2 (a d)) as [rows cols]. simpl in Hrows, Hcols.
    apply Nat.ltb_lt in Hcols. rewrite Hcols.
    unfold first. cbn [size1 item1].
    apply Nat.ltb_lt in Hrows. rewrite Hrows. reflexivity. }
  eexists. split.
  - rewrite (get_scoring _ _ _ Ht), (predict_ok _ _ v _ Hf Hs), report_sorted.
    reflexivity.
  - intros []; reflexivity.
Qed.

(** ** Further properties of the handler *)

(** The handler has three outcomes and no other: the client error for a
    blank text, the report when all six dimensions score, the server error
    carrying the exception of a failing dimension otherwise. *)
Theorem handler_outcomes m args tr :
  (truthy (request_text args) = false
   /\ fst (get m args tr) = Ok (error_body (lit "Text is required"), 400%nat))
  \/ (truthy (request_text args) = true
      /\ exists p, (forall d, score m d (request_text args) = Ok (p d))
                   /\ fst (get m args tr) = Ok (report (request_text args) p, 200%nat))
  \/ (truthy (request_text args) = true
      /\ exists d e, score m d (request_text args) = Raise e
                     /\ fst (get m args tr)
                        = Ok (error_body (lit "Error during prediction: " ++ exc_str e),
                              500%nat)).
Proof.
  destruct (truthy (request_text args)) eqn:Ht.
  - right. rewrite (get_scoring _ _ _ Ht).
    destruct (predict m (request_text args) tr) as [[resp|e] tr'] eqn:Ep.
    + left. split; [reflexivity|].
      assert (Hok : fst (predict m (request_text args) tr) = Ok resp)
        by (rewrite Ep; reflexivity).
      destruct (predict_ok_inv _ _ _ _ Hok) as (p & Hp & ->).
      exists p. auto.
    + right. split; [reflexivity|].
      assert (Hs : exists d e0, score m d (request_text args) = Raise e0).
      { destruct (score m Toxic (request_text args)) eqn:S1; [|eauto].
        destruct (score m SevereToxic (request_text args)) eqn:S2; [|eauto].
        destruct (score m Obscene (request_text args)) eqn:S3; [|eauto].
        destruct (score m Insult (request_text args)) eqn:S4; [|eauto].
        destruct (score m Threat (request_text args)) eqn:S5; [|eauto].
        destruct (score m IdentityHate (request_text args)) eqn:S6; [|eauto].
        exfalso.
        set (p := fun d => match d with
                           | Toxic => a | SevereToxic => a0 | Obscene => a1
                           | Insult => a2 | Threat => a3 | IdentityHate => a4
                           end).
        assert (Hp : forall d, score m d (request_text args) = Ok (p d))
          by (intros []; assumption).
        destruct (features_of_score _ _ _ _ S1) as [v1 V1].
        destruct (features_of_score _ _ _ _ S2) as [v2 V2].
        destruct (features_of_score _ _ _ _ S3) as [v3 V3].
        destruct (features_of_score _ _ _ _ S4) as [v4 V4].
        destruct (features_of_score _ _ _ _ S5) as [v5 V5].
        destruct (features_of_score _ _ _ _ S6) as [v6 V6].
        set (v := fun d => match d with
                           | Toxic => v1 | SevereToxic => v2 | Obscene => v3
                           | Insult => v4 | Threat => v5 | IdentityHate => v6
                           end).
        assert (Hv : forall d, features m d (request_text args) = Ok (v d))
          by (intros []; assumption).
        rewrite (predict_ok _ _ v p Hv Hp) in Ep. discriminate. }
      destruct Hs as (d & e0 & Hs).
      destruct (predict_raise _ _ _ _ Hs tr) as (d' & e' & Hd' & Hr).
      rewrite Ep in Hr. simpl in Hr. injection Hr as ->.
      exists d', e'. auto.
  - left. split; [reflexivity|]. rewrite (get_blank _ _ _ Ht). reflexivity.
Qed.

(** The client error is answered for blank texts and for no other: a text
    with one character that is not whitespace is always scored. *)
Theorem client_error_iff_blank m args tr :
  (exists body, fst (get m args tr) = Ok (body, 400%nat))
  <-> forallb Py_UNICODE_ISSPACE (args_get args (lit "text") (lit "")) = true.
Proof.
  split.
  - intros [body H]. apply strip_nil. apply truthy_false.
    fold (request_text args).
    destruct (truthy (request_text args)) eqn:Ht; [exfalso|reflexivity].
    rewrite (get_scoring _ _ _ Ht) in H.
    destruct (predict m (request_text args) tr) as [[resp|e] tr'] eqn:Ep.
    + assert (Hok : fst (predict m (request_text args) tr) = Ok resp)
        by (rewrite Ep; reflexivity).
      destruct (predict_ok_inv _ _ _ _ Hok) as (p & _ & ->).
      simpl in H. discriminate.
    + simpl in H. discriminate.
  - intros H. eexists. rewrite get_blank; [reflexivity|].
    unfold request_text. rewrite (strip_blank _ H). reflexivity.
Qed.

(** Whatever the registry and the request, the invocations of one call are
    an initial segment of the twelve call sites in source order, so no
    method is invoked twice or out of turn.  The segment is empty for a
    blank text and is all twelve call sites for a call answered with
    status 200. *)
Theorem invocations_follow_call_sites m args :
  (exists rest, call_sites = map callee (invocations (get m args)) ++ rest)
  /\ (truthy (request_text args) = false -> invocations (get m args) = [])
  /\ (forall tr body, fst (get m args tr) = Ok (body, 200%nat) ->
                      map callee (invocations (get m args)) = call_sites).
Proof.
  split; [|split].
  - destruct (truthy (request_text args)) eqn:Ht.
    + rewrite (get_invocations _ _ Ht). unfold invocations.
      open_predict. run_predict; cbn [snd app map callee]; eexists; reflexivity.
    + unfold invocations. rewrite (get_blank _ _ _ Ht). exists call_sites. reflexivity.
  - intros Ht. unfold invocations. rewrite (get_blank _ _ _ Ht). reflexivity.
  - intros tr body H.
    destruct (truthy (request_text args)) eqn:Ht.
    2:{ rewrite (get_blank _ _ _ Ht) in H. discriminate. }
    rewrite (get_scoring _ _ _ Ht) in H.
    destruct (predict m (request_text args) tr) as [[resp|e] tr'] eqn:Ep;
      simpl in H; [|discriminate].
    assert (Hok : fst (predict m (request_text args) tr) = Ok resp)
      by (rewrite Ep; reflexivity).
    destruct (predict_ok_inv _ _ _ _ Hok) as (p & Hp & _).
    destruct (features_of_scores _ _ _ Hp) as [v Hv].
    rewrite (get_invocations _ _ Ht). unfold invocations.
    rewrite (predict_ok _ _ v p Hv Hp). reflexivity.
Qed.

Lemma probabilities_ok_inv m d text col :
  probabilities m d text = Ok col ->
  exists o c v a,
    extractor m d = Some o /\ transform o [text] = Ok v /\
    classifier m d = Some c /\ predict_proba c v = Ok a /\ column1 a = Ok col.
Proof.
  unfold probabilities, features.
  destruct (extractor m d) as [o|]; [|discriminate].
  destruct (transform o [text]) as [v|] eqn:Ev; [|discriminate].
  destruct (classifier m d) as [c|]; [|discriminate].
  destruct (predict_proba c v) as [a|] eqn:Ea; [|discriminate].
  intros Hc. exists o, c, v, a. auto 10.
Qed.

(** The dimensions called before [d] went through; record what they
    returned. *)
Ltac went_through Hbefore d' :=
  let col := fresh "col" in
  let Hc := fresh "Hc" in
  let o := fresh "o" in let c := fresh "c" in
  let v := fresh "v" in let a := fresh "a" in
  let X := fresh "X" in let T := fresh "T" in let C := fresh "C" in
  let P := fresh "P" in let L := fresh "L" in
  try (destruct (Hbefore d' ltac:(simpl; lia)) as [col Hc];
       destruct (probabilities_ok_inv _ _ _ _ Hc) as (o & c & v & a & X & T & C & P & L);
       simpl in X, C; clear Hc).

(** Find the step of the failing dimension that raised. *)
Ltac failing_step H :=
  repeat (cbn beta iota in H;
          match type of H with
          | context [match ?x with Some _ => _ | None => _ end] => destruct x eqn:?
          | context [match ?x with Ok _ => _ | Raise _ => _ end] => destruct x eqn:?
          end);
  cbn beta iota in H;
  try discriminate H;
  try (injection H as <-).

Ltac until_failure H Hbefore :=
  went_through Hbefore Toxic; went_through Hbefore SevereToxic;
  went_through Hbefore Obscene; went_through Hbefore Threat;
  went_through Hbefore Insult; went_through Hbefore IdentityHate;
  unfold probabilities, features in H; simpl extractor in H; simpl classifier in H;
  open_predict; use_equations; cbn beta iota;
  failing_step H; use_equations; cbn beta iota.

(** The exception of the first prediction statement that fails is the one
    the block raises, and nothing later is invoked. *)
Lemma predict_first_failure m text d e :
  probabilities m d text = Raise e ->
  (forall d', (call_position d' < call_position d)%nat ->
              exists col, probabilities m d' text = Ok col) ->
  (forall tr, fst (predict m text tr) = Raise e)
  /\ forall ev, In ev (invocations (predict m text)) ->
                (call_position (event_dimension ev) <= call_position d)%nat.
Proof.
  intros H Hbefore. split.
  - intros tr. destruct d; until_failure H Hbefore; reflexivity.
  - intros ev. unfold invocations.
    destruct d; until_failure H Hbefore; cbn [snd app]; intros Hin;
      repeat (destruct Hin as [<-|Hin]; [simpl; lia|]); contradiction.
Qed.

(** When a prediction statement fails and all the statements above it went
    through, the response carries that statement's exception, whatever the
    statements below would have done, and no dimension below was invoked. *)
Theorem first_failure_is_reported m args d e tr :
  truthy (request_text args) = true ->
  probabilities m d (request_text args) = Raise e ->
  (forall d', (call_position d' < call_position d)%nat ->
              exists col, probabilities m d' (request_text args) = Ok col) ->
  fst (get m args tr)
    = Ok (error_body (lit "Error during prediction: " ++ exc_str e), 500%nat)
  /\ forall ev, In ev (invocations (get m args)) ->
                (call_position (event_dimension ev) <= call_position d)%nat.
Proof.
  intros Ht H Hbefore.
  destruct (predict_first_failure _ _ _ _ H Hbefore) as [Hr Hev].
  split.
  - rewrite (get_scoring _ _ _ Ht). specialize (Hr tr).
    destruct (predict m (request_text args) tr) as [r tr'].
    simpl in Hr. subst r. reflexivity.
  - rewrite (get_invocations _ _ Ht). exact Hev.
Qed.

(** Indexing [[0]] comes after the twelve invocations: once every
    classifier has answered an array with a second column, all twelve model
    calls are made, in source order, whether or not the response then turns
    into a server error on an array without rows. *)
Theorem all_models_run_before_indexing m args
    (v : Dimension -> FeatureVector) (col : Dimension -> ndarray1) :
  truthy (request_text args) = true ->
  (forall d, features m d (request_text args) = Ok (v d)) ->
  (forall d, probabilities m d (request_text args) = Ok (col d)) ->
  invocations (get m args) = calls_in_order (request_text args) v.
Proof.
  intros Ht Hv Hc. rewrite (get_invocations _ _ Ht).
  set (text := request_text args) in *.
  assert (Hd : forall d, exists o c a,
             extractor m d = Some o /\ transform o [text] = Ok (v d) /\
             classifier m d = Some c /\ predict_proba c (v d) = Ok a /\
             column1 a = Ok (col d)).
  { intros d.
    destruct (probabilities_ok_inv _ _ _ _ (Hc d)) as (o & c & v' & a & Ho & Hv' & H).
    specialize (Hv d). unfold features in Hv. rewrite Ho, Hv' in Hv.
    injection Hv as ->. exists o, c, a. auto 10. }
  destruct (Hd Toxic) as (o1 & c1 & a1 & X1 & T1 & C1 & P1 & L1).
  destruct (Hd SevereToxic) as (o2 & c2 & a2 & X2 & T2 & C2 & P2 & L2).
  destruct (Hd Obscene) as (o3 & c3 & a3 & X3 & T3 & C3 & P3 & L3).
  destruct (Hd Insult) as (o4 & c4 & a4 & X4 & T4 & C4 & P4 & L4).
  destruct (Hd Threat) as (o5 & c5 & a5 & X5 & T5 & C5 & P5 & L5).
  destruct (Hd IdentityHate) as (o6 & c6 & a6 & X6 & T6 & C6 & P6 & L6).
  clear Hd Hv Hc. simpl in X1, X2, X3, X4, X5, X6, C1, C2, C3, C4, C5, C6.
  unfold invocations. open_predict.
  rewrite X1, T1, C1, P1, L1, X2, T2, C2, P2, L2, X3, T3, C3, P3, L3.
  rewrite X5, T5, C5, P5, L5, X4, T4, C4, P4, L4, X6, T6, C6, P6, L6.
  run_predict; reflexivity.
Qed.

(** A classifier whose answer has no row, or fewer than two columns, turns
    the call into a server error. *)
Theorem malformed_proba_is_server_error m args d c v a tr :
  truthy (request_text args) = true ->
  features m d (request_text args) = Ok v ->
  classifier m d = Some c ->
  predict_proba c v = Ok a ->
  (fst (shape2 a) = 0 \/ snd (shape2 a) < 2)%nat ->
  exists e, fst (get m args tr)
            = Ok (error_body (lit "Error during prediction: " ++ exc_str e), 500%nat).
Proof.
  intros Ht Hv Hc Ha Hshape.
  assert (Hs : exists e, score m d (request_text args) = Raise e).
  { unfold score, probabilities. rewrite Hv, Hc, Ha.
    unfold column1. destruct (shape2 a) as [rows cols]. simpl in Hshape.
    destruct (1 <? cols)%nat eqn:Ecols; [|eauto].
    destruct Hshape as [->|Hcols]; [unfold first; simpl; eauto|].
    apply Nat.ltb_lt in Ecols. lia. }
  destruct Hs as [e Hs].
  destruct (get_raise _ _ _ _ tr Ht Hs) as (d' & e' & _ & Hg).
  exists e'. exact Hg.
Qed.

(** The text a successful response echoes is never empty, neither starts
    nor ends with whitespace, and is the request's text with a blank prefix
    and a blank suffix cut off: whitespace inside the text is kept. *)
Theorem original_text_is_trimmed_core m args tr body :
  fst (get m args tr) = Ok (body, 200%nat) ->
  exists t pre post,
    json_get (lit "original_text") body = Some (JStr t)
    /\ args_get args (lit "text") (lit "") = pre ++ t ++ post
    /\ forallb Py_UNICODE_ISSPACE pre = true
    /\ forallb Py_UNICODE_ISSPACE post = true
    /\ (exists c u, t = c :: u /\ Py_UNICODE_ISSPACE c = false)
    /\ (exists u c, t = u ++ [c] /\ Py_UNICODE_ISSPACE c = false).
Proof.
  intros H.
  destruct (truthy (request_text args)) eqn:Ht.
  2:{ rewrite (get_blank _ _ _ Ht) in H. discriminate. }
  rewrite (get_scoring _ _ _ Ht) in H.
  destruct (predict m (request_text args) tr) as [[resp|e] tr'] eqn:Ep;
    simpl in H; [|discriminate].
  assert (Hok : fst (predict m (request_text args) tr) = Ok resp)
    by (rewrite Ep; reflexivity).
  destruct (predict_ok_inv _ _ _ _ Hok) as (p & _ & Hresp).
  assert (Hbody : body = report (request_text args) p) by congruence.
  destruct (strip_split (args_get args (lit "text") (lit "")))
    as (pre & post & Hs & Hpre & Hpost).
  fold (request_text args) in Hs.
  exists (request_text args), pre, post.
  split; [subst body; rewrite report_sorted; reflexivity|]. split; [exact Hs|].
  split; [exact Hpre|]. split; [exact Hpost|].
  split.
  - destruct (request_text args) as [|c u] eqn:E; [discriminate|].
    exists c, u. split; [reflexivity|]. eapply strip_head. exact E.
  - destruct (exists_last (l := request_text args)) as (u & c & E).
    { intros E. rewrite E in Ht. discriminate. }
    exists u, c. split; [exact E|]. eapply strip_last. exact E.
Qed.

(** ** Startup *)

Lemma vect_path_model_path d d' :
  (vect_path d = vect_path d' -> d = d')
  /\ (model_path d = model_path d' -> d = d')
  /\ vect_path d <> model_path d'.
Proof.
  destruct d, d'; repeat split; intros H; try reflexivity;
    vm_compute in H; discriminate H.
Qed.

(** The twelve file names are pairwise different: when all files but one
    load, at most one global is left at [None]. *)
Theorem one_missing_file_disables_one_global (fs : FileSystem FeatureVector) missing :
  (forall path, path <> missing -> exists o, fs path = Ok (Some o)) ->
  forall d d',
    (extractor (fst (load_models fs)) d = None ->
     extractor (fst (load_models fs)) d' = None -> d = d')
    /\ (classifier (fst (load_models fs)) d = None ->
        classifier (fst (load_models fs)) d' = None -> d = d')
    /\ (extractor (fst (load_models fs)) d = None ->
        classifier (fst (load_models fs)) d' = None -> False).
Proof.
  intros Hfs d d'.
  assert (Hx : forall d0, extractor (fst (load_models fs)) d0 = None ->
                          vect_path d0 = missing).
  { intros d0. rewrite load_models_extractor.
    destruct (list_eq_dec N.eq_dec (vect_path d0) missing) as [E|E]; [auto|].
    destruct (Hfs _ E) as [o ->]. discriminate. }
  assert (Hc : forall d0, classifier (fst (load_models fs)) d0 = None ->
                          model_path d0 = missing).
  { intros d0. rewrite load_models_classifier.
    destruct (list_eq_dec N.eq_dec (model_path d0) missing) as [E|E]; [auto|].
    destruct (Hfs _ E) as [o ->]. discriminate. }
  destruct (vect_path_model_path d d') as (Hvv & Hmm & Hvm).
  repeat split.
  - intros H1 H2. apply Hvv. rewrite (Hx _ H1), (Hx _ H2). reflexivity.
  - intros H1 H2. apply Hmm. rewrite (Hc _ H1), (Hc _ H2). reflexivity.
  - intros H1 H2. apply Hvm. rewrite (Hx _ H1), (Hc _ H2). reflexivity.
Qed.

End EngineProperties.

(** ** Objects treated as pure functions *)

Section PureObjects.

Context {FeatureVector World : Type}.
Implicit Types (ms : Stateful.Models FeatureVector World) (m : Models FeatureVector).

Lemma agree_ret {A} (a : A) :
  agree (FeatureVector := FeatureVector) (World := World) (Stateful.ret a) (ret a).
Proof. intros w tr. reflexivity. Qed.

Lemma agree_lift {A} (r : result A) :
  agree (FeatureVector := FeatureVector) (World := World) (Stateful.lift r) (lift r).
Proof. intros w tr. reflexivity. Qed.

Lemma agree_bind {A B} (cs : Stateful.M World A) (c : M FeatureVector A)
    (ks : A -> Stateful.M World B) (k : A -> M FeatureVector B) :
  agree cs c -> (forall a, agree (ks a) (k a)) ->
  agree (Stateful.bind cs ks) (bind c k).
Proof.
  intros Hc Hk w tr. unfold Stateful.bind, bind.
  specialize (Hc w tr).
  destruct (cs w) as [r w'], (c tr) as [r' tr']. simpl in Hc. subst r'.
  destruct r as [a|e]; [apply Hk|reflexivity].
Qed.

Lemma agree_try_except {A} (cs : Stateful.M World A) (c : M FeatureVector A) hs h :
  agree cs c -> (forall e, agree (hs e) (h e)) ->
  agree (Stateful.try_except cs hs) (try_except c h).
Proof.
  intros Hc Hh w tr. unfold Stateful.try_except, try_except.
  specialize (Hc w tr).
  destruct (cs w) as [r w'], (c tr) as [r' tr']. simpl in Hc. subst r'.
  destruct r as [a|e]; [reflexivity|apply Hh].
Qed.

Lemma agree_call_transform g h d data :
  same_global g h ->
  agree (World := World) (Stateful.call_transform g data)
        (call_transform (FeatureVector := FeatureVector) d h data).
Proof.
  intros Hg w tr. unfold Stateful.call_transform, call_transform.
  destruct g as [o|], h as [f|]; try contradiction; [|reflexivity].
  destruct Hg as [Ht _]. apply Ht.
Qed.

Lemma agree_call_predict_proba g h d vect :
  same_global g h ->
  agree (World := World) (Stateful.call_predict_proba g vect)
        (call_predict_proba (FeatureVector := FeatureVector) d h vect).
Proof.
  intros Hg w tr. unfold Stateful.call_predict_proba, call_predict_proba.
  destruct g as [o|], h as [f|]; try contradiction; [|reflexivity].
  destruct Hg as [_ Hp]. apply Hp.
Qed.

Lemma agree_predict ms m text :
  pure_models ms m -> agree (Stateful.predict ms text) (predict m text).
Proof.
  intros (H1 & H2 & H3 & H4 & H5 & H6 & H7 & H8 & H9 & H10 & H11 & H12).
  unfold Stateful.predict, predict.
  repeat (apply agree_bind;
          [first [ apply agree_call_transform; assumption
                 | apply agree_call_predict_proba; assumption
                 | apply agree_lift ]
          | intros ?]).
  apply agree_ret.
Qed.

Lemma agree_get ms m args :
  pure_models ms m -> agree (Stateful.get ms args) (get m args).
Proof.
  intros H. unfold Stateful.get, get. destruct (negb _).
  - apply agree_ret.
  - apply agree_try_except; [apply agree_predict; exact H|].
    intros e. apply agree_ret.
Qed.

(** C6. Determinism: with the loaded objects treated as pure functions
    (what a method returns depends on its argument only, whatever it does
    to the process state), two calls in a row with the same request answer
    the same response, from any starting state; and that response is the
    one the handler computes from those pure functions. *)
Theorem repeated_call_same_report ms m args w :
  pure_models ms m ->
  fst (Stateful.get ms args (snd (Stateful.get ms args w)))
    = fst (Stateful.get ms args w)
  /\ forall tr, fst (Stateful.get ms args w) = fst (get m args tr).
Proof.
  intros H. pose proof (agree_get ms m args H) as Ha. split.
  - rewrite (Ha (snd (Stateful.get ms args w)) []), (Ha w []). reflexivity.
  - intros tr. apply Ha.
Qed.

End PureObjects.

(** ** Worked examples on the test doubles *)


Example startup_reports_missing_file :
  snd (load_models (fs_without (model_path Toxic)))
  = [lit "Error loading toxic model from 'model/toxic_model.pkl': [Errno 2] No such file or directory: 'model/toxic_model.pkl'"].
Proof. vm_compute. reflexivity. Qed.

Example strip_example : strip (lit "  padded text ") = lit "padded text".
Proof. reflexivity. Qed.

(** The bits behind two decimal literals. *)
Example dec_bits :
  dec 873 1000 = S754_finite false 7863284949388886 (-53)
  /\ dec 15 1000 = S754_finite false 8646911284551352 (-59).
Proof. split; vm_compute; reflexivity. Qed.

(** Ties are decided on the binary64 product: [0.015 * 100], [0.005 * 100]
    and [0.995 * 100] are exactly 1.5, 0.5 and 99.5. *)
Example round2_ties :
  round2 (dec 15 1000) = dec 2 100
  /\ round2 (dec 5 1000) = dec 0 100
  /\ round2 (dec 995 1000) = dec 1 1
  /\ round2 (dec 545 1000) = dec 55 100
  /\ round2 (dec 285 1000) = dec 28 100.
Proof. repeat split; vm_compute; reflexivity. Qed.

(** A pickle of [None] loads without a message and leaves the global at
    [None]. *)
Example silent_none :
  load_pickle_file (FeatureVector := list nat) (fun _ => Ok None)
                   (vect_path Toxic) (lit "toxic vectorizer")
  = (None, []).
Proof. reflexivity. Qed.

(** A classifier whose answers depend on the state breaks repetition. *)
Example stateful_classifier_breaks_repetition :
  fst (Stateful.get drifting_models (query "hi") (snd (Stateful.get drifting_models (query "hi") 0%nat)))
  <> fst (Stateful.get drifting_models (query "hi") 0%nat).
Proof. vm_compute. discriminate. Qed.

(** C4 as stated fails.  With the toxic classifier file missing and the
    toxic vectorizer loaded, a call still invokes the toxic vectorizer:
    the dimension runs with one component of its pair, and the answer is
    the generic server error built from the [AttributeError] text, not an
    error kind of its own. *)
Lemma toxic_vectorizer_runs_without_classifier :
  extractor (fst (load_models (fs_without (model_path Toxic)))) Toxic
    = Some (stub (dec 1 4))
  /\ classifier (fst (load_models (fs_without (model_path Toxic)))) Toxic = None
  /\ get (fst (load_models (fs_without (model_path Toxic)))) (query "hi") []
     = (Ok (error_body
              (lit "Error during prediction: 'NoneType' object has no attribute 'predict_proba'"),
            500%nat),
        [CallTransform Toxic [lit "hi"]]).
Proof. vm_compute. repeat split. Qed.

(** C5 as stated fails.  On the stub registry the six keys of
    [toxicity_results] come out in key order, which is not the display
    order Toxic, Severe Toxic, Obscene, Insult, Threat, Identity Hate. *)
Lemma report_keys_not_in_display_order :
  toxicity_keys (fst (get stub_models (query "you are awful") []))
    = [ lit "Prob (Identity Hate)"; lit "Prob (Insult)"; lit "Prob (Obscene)";
        lit "Prob (Severe Toxic)"; lit "Prob (Threat)"; lit "Prob (Toxic)" ]
  /\ toxicity_keys (fst (get stub_models (query "you are awful") []))
     <> [ lit "Prob (Toxic)"; lit "Prob (Severe Toxic)"; lit "Prob (Obscene)";
          lit "Prob (Insult)"; lit "Prob (Threat)"; lit "Prob (Identity Hate)" ].
Proof. split; vm_compute; [reflexivity|discriminate]. Qed.

(** ** Instances *)

Lemma all_or_nothing_witness :
  exists d' e',
    score threat_broken d' (request_text (query "hello")) = Raise e' /\
    fst (get threat_broken (query "hello") []) = Ok (server_error e') /\
    json_keys (fst (server_error e')) = [lit "error"] /\
    json_numbers (fst (server_error e')) = [].
Proof.
  apply (all_or_nothing threat_broken (query "hello") Threat
           (mkExc "ValueError" (lit "X has 1 features, but expecting 2")) []);
    reflexivity.
Defined.

Lemma empty_input_short_circuit_witness :
  get stub_models blank_query [CallTransform Toxic [lit "earlier"]]
  = (Ok (error_body (lit "Text is required"), 400%nat),
     [CallTransform Toxic [lit "earlier"]]).
Proof.
  apply (empty_input_short_circuit stub_models blank_query). reflexivity.
Defined.

Lemma success_report_shape_witness :
  fst (get stub_models (query "you are awful") []) =
    Ok (JObj [ (lit "original_text", JStr (request_text (query "you are awful")));
               (lit "toxicity_results",
                JObj [ (lit "Prob (Identity Hate)", JNum (round2 (stub_scores IdentityHate)));
                       (lit "Prob (Insult)", JNum (round2 (stub_scores Insult)));
                       (lit "Prob (Obscene)", JNum (round2 (stub_scores Obscene)));
                       (lit "Prob (Severe Toxic)", JNum (round2 (stub_scores SevereToxic)));
                       (lit "Prob (Threat)", JNum (round2 (stub_scores Threat)));
                       (lit "Prob (Toxic)", JNum (round2 (stub_scores Toxic))) ]) ],
        200%nat).
Proof.
  apply (success_report_shape stub_models (query "you are awful") stub_scores []).
  - reflexivity.
  - intros []; reflexivity.
Defined.

Lemma repeated_call_same_report_witness :
  fst (Stateful.get counting_models (query "you are awful")
         (snd (Stateful.get counting_models (query "you are awful") 0%nat)))
    = fst (Stateful.get counting_models (query "you are awful") 0%nat)
  /\ forall tr, fst (Stateful.get counting_models (query "you are awful") 0%nat)
                = fst (get stub_models (query "you are awful") tr).
Proof.
  apply (repeated_call_same_report counting_models stub_models
           (query "you are awful") 0%nat).
  repeat split.
Defined.

Lemma unavailable_dimension_fails_witness :
  exists d' e',
    score (fst (load_models (fs_without (vect_path Insult)))) d'
          (request_text (query "hello")) = Raise e' /\
    fst (get (fst (load_models (fs_without (vect_path Insult)))) (query "hello") [])
      = Ok (server_error e') /\
    fst (get (fst (load_models (fs_without (vect_path Insult)))) (query "hello")
             (snd (get (fst (load_models (fs_without (vect_path Insult))))
                       (query "hello") [])))
      = Ok (server_error e') /\
    ((exists e, fs_without (vect_path Insult) (vect_path Insult) = Raise e) ->
     forall ev,
       In ev (invocations (get (fst (load_models (fs_without (vect_path Insult))))
                               (query "hello"))) ->
       event_dimension ev <> Insult).
Proof.
  apply (unavailable_dimension_fails (fs_without (vect_path Insult)) Insult
           (query "hello") []).
  - left. exists (FileNotFoundError (vect_path Insult)). reflexivity.
  - reflexivity.
Defined.


Lemma original_text_is_trimmed_input_witness :
  json_get (lit "original_text") (report (lit "padded text") stub_scores)
    = Some (JStr (strip (args_get (query "  padded text ") (lit "text") (lit ""))))
  /\ (forall d data,
        In (CallTransform d data) (invocations (get stub_models (query "  padded text "))) ->
        data = [strip (args_get (query "  padded text ") (lit "text") (lit ""))])
  /\ strip (strip (args_get (query "  padded text ") (lit "text") (lit "")))
     = strip (args_get (query "  padded text ") (lit "text") (lit "")).
Proof.
  apply (original_text_is_trimmed_input stub_models (query "  padded text ") []
           (report (lit "padded text") stub_scores)).
  reflexivity.
Defined.

Lemma missing_text_is_empty_text_witness :
  get stub_models [(lit "lang", lit "en")] []
    = get stub_models [(lit "text", lit "")] []
  /\ get stub_models [(lit "lang", lit "en")] []
     = (Ok (error_body (lit "Text is required"), 400%nat), []).
Proof.
  apply (missing_text_is_empty_text stub_models [(lit "lang", lit "en")] []).
  intros k v [H|[]]. injection H as <- _. discriminate.
Defined.

Lemma extractor_classifier_pairing_witness :
  exists results,
    get stub_models (query "you are awful") []
      = (Ok (JObj [ (lit "original_text", JStr (request_text (query "you are awful")));
                    (lit "toxicity_results", JObj results) ], 200%nat),
         [] ++ calls_in_order (request_text (query "you are awful")) (fun _ => [13%nat]))
    /\ forall d, assoc (label d) results
                 = Some (JNum (round2 (item2 (constant_proba (stub_scores d)) 0%nat 1%nat))).
Proof.
  apply (extractor_classifier_pairing stub_models (query "you are awful")
           (fun _ => stub zero) (fun d => stub (stub_scores d))
           (fun _ => [13%nat]) (fun d => constant_proba (stub_scores d)) []).
  - reflexivity.
  - intros []; split; reflexivity.
  - intros d; reflexivity.
  - intros d; reflexivity.
  - intros d; split; simpl; lia.
Defined.

(** ** Instances of the further properties *)

Lemma first_failure_is_reported_witness :
  fst (get (with_classifier Obscene (Some broken)) (query "hello") [])
    = Ok (error_body (lit "Error during prediction: "
                      ++ lit "X has 1 features, but expecting 2"), 500%nat)
  /\ forall ev,
       In ev (invocations (get (with_classifier Obscene (Some broken)) (query "hello"))) ->
       (call_position (event_dimension ev) <= call_position Obscene)%nat.
Proof.
  apply (first_failure_is_reported (with_classifier Obscene (Some broken))
           (query "hello") Obscene
           (mkExc "ValueError" (lit "X has 1 features, but expecting 2")) []).
  - reflexivity.
  - reflexivity.
  - intros d' Hlt. destruct d'; simpl in Hlt; try lia; eexists; reflexivity.
Defined.

Lemma all_models_run_before_indexing_witness :
  invocations (get (with_classifier Toxic (Some no_rows)) (query "hello"))
  = calls_in_order (request_text (query "hello")) (fun _ => [5%nat]).
Proof.
  apply (all_models_run_before_indexing (with_classifier Toxic (Some no_rows))
           (query "hello") (fun _ => [5%nat])
           (fun d => match probabilities (with_classifier Toxic (Some no_rows)) d
                             (request_text (query "hello")) with
                     | Ok c => c
                     | Raise _ => mkArr1 0 (fun _ => zero)
                     end)).
  - reflexivity.
  - intros []; reflexivity.
  - intros []; reflexivity.
Defined.

Lemma malformed_proba_is_server_error_witness :
  exists e,
    fst (get (with_classifier Toxic (Some one_column)) (query "hello") [])
    = Ok (error_body (lit "Error during prediction: " ++ exc_str e), 500%nat).
Proof.
  apply (malformed_proba_is_server_error (with_classifier Toxic (Some one_column))
           (query "hello") Toxic one_column [5%nat]
           (mkArr2 (1%nat, 1%nat) (fun _ _ => one)) []).
  - reflexivity.
  - reflexivity.
  - reflexivity.
  - reflexivity.
  - right. simpl. lia.
Defined.

Lemma original_text_is_trimmed_core_witness :
  exists t pre post,
    json_get (lit "original_text") (report (lit "padded text") stub_scores)
      = Some (JStr t)
    /\ args_get (query "  padded text ") (lit "text") (lit "") = pre ++ t ++ post
    /\ forallb Py_UNICODE_ISSPACE pre = true
    /\ forallb Py_UNICODE_ISSPACE post = true
    /\ (exists c u, t = c :: u /\ Py_UNICODE_ISSPACE c = false)
    /\ (exists u c, t = u ++ [c] /\ Py_UNICODE_ISSPACE c = false).
Proof.
  apply (original_text_is_trimmed_core stub_models (query "  padded text ") []
           (report (lit "padded text") stub_scores)).
  reflexivity.
Defined.

Lemma one_missing_file_disables_one_global_witness :
  (extractor (fst (load_models (fs_without (model_path Toxic)))) Toxic = None ->
   extractor (fst (load_models (fs_without (model_path Toxic)))) Insult = None ->
   Toxic = Insult)
  /\ (classifier (fst (load_models (fs_without (model_path Toxic)))) Toxic = None ->
      classifier (fst (load_models (fs_without (model_path Toxic)))) Insult = None ->
      Toxic = Insult)
  /\ (extractor (fst (load_models (fs_without (model_path Toxic)))) Toxic = None ->
      classifier (fst (load_models (fs_without (model_path Toxic)))) Insult = None ->
      False).
Proof.
  apply (one_missing_file_disables_one_global (fs_without (model_path Toxic))
           (model_path Toxic)).
  intros path Hne. unfold fs_without, pystr_eqb.
  destruct (list_eq_dec N.eq_dec path (model_path Toxic)) as [E|_].
  - contradiction.
  - eexists. reflexivity.
Defined.
